(** * Trading Strategy Analyzer (Meet.py): price resolver, outcome
    classifier and batch evaluation, embedded and verified.

    The embedding follows [src/Meet.py] function by function:
      - [get_stock_price]            (lines 47-95),
      - [check_target_or_sl_first]   (lines 98-148),
      - [main]                       (lines 151-344): the row loop, the
        statistics block, the monthly chart and the profit and loss
        block.

    Conventions.
      - A Python [float] (and a numpy [float64]) is a binary64 value:
        Rocq's primitive [float], whose operations are IEEE 754 with
        rounding to nearest even.
      - A [datetime] built by [strptime] from the four formats of the
        source is a midnight; it is represented by the proleptic Gregorian
        ordinal of its day, the number [datetime.toordinal()] returns.
        Every comparison the source makes goes through [.date()] or a
        ['%Y-%m-%d'] rendering, both of which are injective on ordinals.
        A date cell that is a timestamp already is taken by its day.
      - A Python exception is a value of [exn]; code that may raise lives
        in the [exc] monad, and a [try: ... except Exception] is a
        pattern match on its outcome.
      - A Rocq [string] stands for the Python [str] with the same code
        points, all below 256.
      - The price source ([yfinance.Ticker(sym).history(start=, end=)]) is
        not code of the repository: it is a parameter [history] of every
        function that fetches, and may return any frame or raise.
        [yf_history] is the source as yfinance documents it, over the
        bars an exchange has: rows from [start] on and before [end].
      - Calls into streamlit and plotly that only display are left out.
        The chart of line 303 is kept: its figure holds pandas [Period]
        values, which the chart's JSON encoder refuses.  An exception
        escaping the body of [main] ends in the handler of line 342.
        [st.cache_data] memoises [get_stock_price]; with a source that is
        a function it changes no result.
      - The texts of exceptions raised by Python and its libraries are
        those of CPython, numpy and pandas; no statement below depends
        on them except through [str(e)]. *)

From Stdlib Require Import ZArith Lia Bool List Ascii String PrimFloat.
From Stdlib Require Import Floats DecimalString.
From stdpp Require Import base tactics option list.

Local Open Scope string_scope.
Local Open Scope list_scope.
Local Open Scope Z_scope.

(* ===================================================================== *)
(** ** Exceptions and the [exc] monad *)
(* ===================================================================== *)

Inductive exn_class : Set :=
  | ValueError | TypeError | AttributeError | OverflowError
  | IndexError | ZeroDivisionError
  | SourceError.   (* whatever the price source raises *)

Record exn : Set := Exn { exn_kind : exn_class; exn_msg : string }.

(** [str(e)] *)
Definition str (e : exn) : string := exn_msg e.

Inductive exc (A : Type) : Type :=
  | Ok (a : A)
  | Raise (e : exn).
Arguments Ok {A} a.
Arguments Raise {A} e.

Definition rbind {A B} (r : exc A) (k : A -> exc B) : exc B :=
  match r with
  | Ok a => k a
  | Raise e => Raise e
  end.

Notation "x <~ r ;; k" := (rbind r (fun x => k))
  (at level 100, r at next level, right associativity).

(** [try: body except: handler] with a bare [except], as lines 59-70. *)
Definition try_except {A} (body : exc A) (handler : exc A) : exc A :=
  match body with
  | Ok a => Ok a
  | Raise _ => handler
  end.

(* ===================================================================== *)
(** ** Strings *)
(* ===================================================================== *)

(** [c in s] for a one-character [c]. *)
Fixpoint contains (c : ascii) (s : string) : bool :=
  match s with
  | EmptyString => false
  | String a s' => Ascii.eqb a c || contains c s'
  end.

(** [s.endswith(suffix)] *)
Definition endswith (s suffix : string) : bool :=
  let n := String.length s in
  let k := String.length suffix in
  (k <=? n)%nat && String.eqb (substring (n - k) k s) suffix.

Definition dquote : string := String (ascii_of_nat 34) EmptyString.

(** [repr(s)] of a [str]: single quotes, or double quotes when the text
    holds a single quote and no double one; the quote in use and the
    backslash are escaped, tab, newline and return are written [\t],
    [\n], [\r], and any other character that is not printable as
    [\xhh]. *)
Definition hex_digit (n : N) : ascii :=
  if (n <? 10)%N then ascii_of_N (48 + n) else ascii_of_N (87 + n).

Definition printable (c : ascii) : bool :=
  let n := N_of_ascii c in
  ((32 <=? n) && (n <? 127) || (160 <? n) && negb (n =? 173))%N.

Definition repr_char (quote c : ascii) : string :=
  let n := N_of_ascii c in
  if Ascii.eqb c quote || Ascii.eqb c "\" then String "\" (String c EmptyString)
  else if (n =? 9)%N then "\t"
  else if (n =? 10)%N then "\n"
  else if (n =? 13)%N then "\r"
  else if printable c then String c EmptyString
  else String "\" (String "x" (String (hex_digit (n / 16)) (String (hex_digit (n mod 16)) EmptyString))).

Definition repr (s : string) : string :=
  let quote : ascii :=
    if contains "'" s && negb (contains (ascii_of_nat 34) s)
    then ascii_of_nat 34 else "'"%char in
  (String quote
     (String.concat EmptyString (map (repr_char quote) (list_ascii_of_string s)))
   ++ String quote EmptyString)%string.

(** [str(n)] for an [int]. *)
Definition str_of_Z (n : Z) : string := NilEmpty.string_of_int (Z.to_int n).

(* ===================================================================== *)
(** ** The calendar of [datetime] *)
(* ===================================================================== *)

Module Calendar.

Definition MINYEAR : Z := 1.
Definition MAXYEAR : Z := 9999.

Definition _is_leap (year : Z) : bool :=
  (year mod 4 =? 0) && (negb (year mod 100 =? 0) || (year mod 400 =? 0)).

Definition _DAYS_IN_MONTH (month : Z) : Z :=
  match month with
  | 1 => 31 | 2 => 28 | 3 => 31 | 4 => 30 | 5 => 31 | 6 => 30
  | 7 => 31 | 8 => 31 | 9 => 30 | 10 => 31 | 11 => 30 | 12 => 31
  | _ => -1
  end.

Definition _DAYS_BEFORE_MONTH (month : Z) : Z :=
  match month with
  | 1 => 0 | 2 => 31 | 3 => 59 | 4 => 90 | 5 => 120 | 6 => 151
  | 7 => 181 | 8 => 212 | 9 => 243 | 10 => 273 | 11 => 304 | 12 => 334
  | _ => -1
  end.

Definition _days_before_year (year : Z) : Z :=
  let y := year - 1 in
  y * 365 + y / 4 - y / 100 + y / 400.

Definition _days_in_month (year month : Z) : Z :=
  if (month =? 2) && _is_leap year then 29 else _DAYS_IN_MONTH month.

Definition _days_before_month (year month : Z) : Z :=
  _DAYS_BEFORE_MONTH month
  + (if (2 <? month) && _is_leap year then 1 else 0).

Definition _ymd2ord (year month day : Z) : Z :=
  _days_before_year year + _days_before_month year month + day.

(** The ordinals of 0001-01-01 and 9999-12-31. *)
Definition MINORD : Z := 1.
Definition MAXORD : Z := Eval vm_compute in _ymd2ord 9999 12 31.

(** A [datetime] at midnight, as the ordinal of its day. *)
Definition datetime : Set := Z.

(** [datetime(year, month, day)]: the constructor checks its fields. *)
Definition mk_datetime (year month day : Z) : exc datetime :=
  if negb ((MINYEAR <=? year) && (year <=? MAXYEAR)) then
    Raise (Exn ValueError ("year " ++ str_of_Z year ++ " is out of range")%string)
  else if negb ((1 <=? month) && (month <=? 12)) then
    Raise (Exn ValueError "month must be in 1..12")
  else if negb ((1 <=? day) && (day <=? _days_in_month year month)) then
    Raise (Exn ValueError "day is out of range for month")
  else Ok (_ymd2ord year month day).

(** [d + timedelta(days=n)] ([n] may be negative): outside
    0001-01-01 .. 9999-12-31 the sum raises [OverflowError]. *)
Definition add_days (d : datetime) (n : Z) : exc datetime :=
  let o := d + n in
  if (MINORD <=? o) && (o <=? MAXORD) then Ok o
  else Raise (Exn OverflowError "date value out of range").

(** [_ord2ymd]: the year, month and day of an ordinal. *)
Definition _DI400Y : Z := 146097.
Definition _DI100Y : Z := 36524.
Definition _DI4Y : Z := 1461.

Definition _ord2ymd (n : Z) : Z * Z * Z :=
  let n := n - 1 in
  let n400 := n / _DI400Y in
  let n := n mod _DI400Y in
  let year := n400 * 400 + 1 in
  let n100 := n / _DI100Y in
  let n := n mod _DI100Y in
  let n4 := n / _DI4Y in
  let n := n mod _DI4Y in
  let n1 := n / 365 in
  let n := n mod 365 in
  let year := year + n100 * 100 + n4 * 4 + n1 in
  if (n1 =? 4) || (n100 =? 4) then (year - 1, 12, 31)
  else
    let leapyear := (n1 =? 3) && (negb (n4 =? 24) || (n100 =? 3)) in
    let month := Z.shiftr (n + 50) 5 in
    let preceding :=
      _DAYS_BEFORE_MONTH month + (if (2 <? month) && leapyear then 1 else 0) in
    if n <? preceding then
      let month := month - 1 in
      let preceding :=
        preceding
        - (_DAYS_IN_MONTH month + (if (month =? 2) && leapyear then 1 else 0)) in
      (year, month, n - preceding + 1)
    else (year, month, n - preceding + 1).

End Calendar.
Export Calendar.

(* ===================================================================== *)
(** ** [datetime.strptime] *)
(* ===================================================================== *)

(** [_strptime] compiles the format into a regular expression, one named
    group per directive, matches it at the start of the data string with
    the usual backtracking over ordered alternatives, refuses unconverted
    trailing data, and hands the integer fields to the [datetime]
    constructor.  The three directives the source uses are modelled with
    the alternations CPython gives them.  Among the code points below
    256, which are those of a Rocq string, [\d] matches the ten digits
    [0] to [9] and nothing else. *)
Module Strptime.

Inductive atom : Set :=
  | Range (lo hi : ascii)    (* [lo-hi] *)
  | Char (c : ascii).        (* an escaped literal character *)

Definition atom_matches (a : atom) (c : ascii) : bool :=
  match a with
  | Range lo hi =>
      ((N_of_ascii lo <=? N_of_ascii c) && (N_of_ascii c <=? N_of_ascii hi))%N
  | Char x => Ascii.eqb x c
  end.

(** [\d] *)
Definition digit : atom := Range "0" "9".

Inductive directive : Set :=
  | pct_d | pct_m | pct_Y
  | Lit (c : ascii).

(** The alternation of each group, in the order of the pattern:
    [%d] is [3[0-1]|[1-2]\d|0[1-9]|[1-9]| [1-9]],
    [%m] is [1[0-2]|0[1-9]|[1-9]], [%Y] is [\d\d\d\d]. *)
Definition alternatives (d : directive) : list (list atom) :=
  match d with
  | pct_d => [ [Char "3"; Range "0" "1"]; [Range "1" "2"; digit];
               [Char "0"; Range "1" "9"]; [Range "1" "9"];
               [Char " "; Range "1" "9"] ]
  | pct_m => [ [Char "1"; Range "0" "2"]; [Char "0"; Range "1" "9"];
               [Range "1" "9"] ]
  | pct_Y => [ [digit; digit; digit; digit] ]
  | Lit c => [ [Char c] ]
  end.

(** The format string, read left to right.  The pattern is compiled with
    [IGNORECASE], which tells nothing apart on digits, blanks and the two
    separators of the source's formats. *)
Fixpoint parse_format (format : string) : exc (list directive) :=
  match format with
  | EmptyString => Ok []
  | String "%" (String c rest) =>
      ds <~ parse_format rest ;;
      if Ascii.eqb c "d" then Ok (pct_d :: ds)
      else if Ascii.eqb c "m" then Ok (pct_m :: ds)
      else if Ascii.eqb c "Y" then Ok (pct_Y :: ds)
      else Raise (Exn ValueError "bad directive in format")
  | String "%" EmptyString => Raise (Exn ValueError "stray % in format")
  | String c rest => ds <~ parse_format rest ;; Ok (Lit c :: ds)
  end.

(** One branch against a prefix of [s]: the text matched and the rest. *)
Fixpoint match_branch (b : list atom) (s : string) : option (string * string) :=
  match b with
  | [] => Some (EmptyString, s)
  | a :: b' =>
      match s with
      | EmptyString => None
      | String c s' =>
          if atom_matches a c then
            match match_branch b' s' with
            | Some (m, r) => Some (String c m, r)
            | None => None
            end
          else None
      end
  end.

(** The first element of [l] on which [f] succeeds. *)
Fixpoint first_some {A B} (f : A -> option B) (l : list A) : option B :=
  match l with
  | [] => None
  | a :: l' => match f a with Some b => Some b | None => first_some f l' end
  end.

(** [format_regex.match(data_string)]: the groups found, and what is
    left of the string after the match. *)
Fixpoint re_match (fmt : list directive) (s : string)
  : option (list (directive * string) * string) :=
  match fmt with
  | [] => Some ([], s)
  | d :: fmt' =>
      first_some
        (fun b =>
           match match_branch b s with
           | Some (m, r) =>
               match re_match fmt' r with
               | Some (found, rest) => Some ((d, m) :: found, rest)
               | None => None
               end
           | None => None
           end)
        (alternatives d)
  end.

Definition directive_eqb (a b : directive) : bool :=
  match a, b with
  | pct_d, pct_d | pct_m, pct_m | pct_Y, pct_Y => true
  | Lit x, Lit y => Ascii.eqb x y
  | _, _ => false
  end.

(** [int(text)] on the text of a group: digits, after optional blanks. *)
Definition to_int (text : string) : Z :=
  fold_left
    (fun acc c =>
       if Ascii.eqb c " " then acc
       else 10 * acc + (Z.of_N (N_of_ascii c) - 48))
    (list_ascii_of_string text) 0.

(** The value of group [d], or [dflt] when the format has no such group. *)
Fixpoint group (d : directive) (dflt : Z) (found : list (directive * string)) : Z :=
  match found with
  | [] => dflt
  | (d', text) :: found' =>
      if directive_eqb d d' then to_int text else group d dflt found'
  end.

Definition strptime (data_string format : string) : exc datetime :=
  fmt <~ parse_format format ;;
  match re_match fmt data_string with
  | None =>
      Raise (Exn ValueError
               ("time data " ++ repr data_string
                ++ " does not match format " ++ repr format)%string)
  | Some (found, rest) =>
      if negb (String.eqb rest EmptyString) then
        Raise (Exn ValueError ("unconverted data remains: " ++ rest)%string)
      else
        mk_datetime (group pct_Y 1900 found) (group pct_m 1 found)
                    (group pct_d 1 found)
  end.

(** A character some atom of a branch accepts, and a character some
    alternative of some directive of a format accepts. *)
Definition branch_admits (b : list atom) (x : ascii) : bool :=
  existsb (fun a => atom_matches a x) b.

Definition fmt_admits (fmt : list directive) (x : ascii) : bool :=
  existsb (fun d => existsb (fun b => branch_admits b x) (alternatives d)) fmt.

End Strptime.
Export Strptime.

(* ===================================================================== *)
(** ** Python values, price frames and the price source *)
(* ===================================================================== *)

(** The value of a [date] cell, and of the variable [date] / [entry_date]
    along lines 58-73: text until a format has parsed it. *)
Inductive pyval : Set :=
  | PStr (s : string)
  | PDatetime (d : datetime).

(** One row of the frame [Ticker.history] returns: the day of its index
    entry ([idx.date()], as an ordinal) and the price columns. *)
Record bar : Set := Bar {
  bar_date : Z;
  Open : float;
  High : float;
  Low : float;
  Close : float
}.

Definition DataFrame : Set := list bar.

(** [yf.Ticker(symbol).history(start=start, end=end)] *)
Definition price_source : Set := string -> pyval -> pyval -> exc DataFrame.

(** The source as yfinance answers: of the daily bars an exchange has for
    the symbol, those dated from [start] on and before [end], the end
    being exclusive.  Both functions of the source pass [datetime]s. *)
Definition yf_history (market : string -> DataFrame) : price_source :=
  fun sym start end_ =>
    match start, end_ with
    | PDatetime s, PDatetime e =>
        Ok (List.filter (fun b => (s <=? bar_date b) && (bar_date b <? e))
              (market sym))
    | _, _ => Raise (Exn SourceError "start and end are no datetimes")
    end.

(** [data.empty] *)
Definition empty (data : DataFrame) : bool :=
  match data with [] => true | _ => false end.

(** The objects line 89 builds: [data.index.date] is a numpy array of
    [datetime.date] objects, and subtracting a [date] from it gives a
    numpy array of [timedelta] objects. *)
Inductive pyobj : Set :=
  | Timedelta (days : Z)
  | NdArray (items : list Z).   (* an array of timedeltas, by their days *)

(** [dates - d], elementwise *)
Definition ndarray_sub (dates : list Z) (d : Z) : pyobj :=
  NdArray (map (fun x => x - d) dates).

(** [o.days]: a [timedelta] has the attribute, a numpy array has not. *)
Definition getattr_days (o : pyobj) : exc Z :=
  match o with
  | Timedelta n => Ok n
  | NdArray _ =>
      Raise (Exn AttributeError "'numpy.ndarray' object has no attribute 'days'")
  end.

(** [column.idxmin()]: the position of the first occurrence of the
    minimum ([None] on an empty column). *)
Fixpoint idxmin (column : list Z) : option nat :=
  match column with
  | [] => None
  | x :: rest =>
      match idxmin rest with
      | None => Some 0%nat
      | Some j =>
          match nth_error rest j with
          | Some y => if x <=? y then Some 0%nat else Some (S j)
          | None => Some 0%nat
          end
      end
  end.

(** [date - timedelta(days=n)] *)
Definition sub_timedelta (date : pyval) (n : Z) : exc pyval :=
  match date with
  | PDatetime d => d' <~ add_days d (- n) ;; Ok (PDatetime d')
  | PStr _ =>
      Raise (Exn TypeError
               "unsupported operand type(s) for -: 'str' and 'datetime.timedelta'")
  end.

(** [date + timedelta(days=n)] *)
Definition add_timedelta (date : pyval) (n : Z) : exc pyval :=
  match date with
  | PDatetime d => d' <~ add_days d n ;; Ok (PDatetime d')
  | PStr _ =>
      Raise (Exn TypeError
               ("can only concatenate str (not " ++ dquote
                ++ "datetime.timedelta" ++ dquote ++ ") to str")%string)
  end.

(** [date.date()], and [date.strftime('%Y-%m-%d')] read as the day it
    renders. *)
Definition date_of (date : pyval) : exc Z :=
  match date with
  | PDatetime d => Ok d
  | PStr _ => Raise (Exn AttributeError "'str' object has no attribute 'date'")
  end.

Definition strftime_Ymd (date : pyval) : exc Z :=
  match date with
  | PDatetime d => Ok d
  | PStr _ =>
      Raise (Exn AttributeError "'str' object has no attribute 'strftime'")
  end.

(** Lines 58-70 (and 108-118): the [isinstance(date, str)] block. *)
Definition convert_date (date : pyval) : exc pyval :=
  match date with
  | PStr s =>
      try_except
        (if contains "/" s then
           d <~ strptime s "%d/%m/%Y" ;; Ok (PDatetime d)
         else if contains "-" s then
           d <~ strptime s "%d-%m-%Y" ;; Ok (PDatetime d)
         else Ok date)
        (try_except
           (d <~ strptime s "%m/%d/%Y" ;; Ok (PDatetime d))
           (d <~ strptime s "%Y-%m-%d" ;; Ok (PDatetime d)))
  | PDatetime _ => Ok date
  end.

(** Lines 52-55 (and 102-105). *)
Definition format_symbol (symbol : string) : string :=
  if negb (endswith symbol ".NS") then (symbol ++ ".NS")%string else symbol.

(* ===================================================================== *)
(** ** [get_stock_price] *)
(* ===================================================================== *)

(** The body of the [try] (lines 51-91). *)
Definition get_stock_price_body
    (history : price_source) (symbol : string) (date : pyval)
  : exc (option float) :=
  let symbol_formatted := format_symbol symbol in
  date <~ convert_date date ;;
  start_date <~ sub_timedelta date 7 ;;
  end_date <~ add_timedelta date 7 ;;
  data <~ history symbol_formatted start_date end_date ;;
  if empty data then Ok None
  else
    target_date <~ strftime_Ymd date ;;
    if existsb (fun b => bar_date b =? target_date) data then
      match List.filter (fun b => bar_date b =? target_date) data with
      | b :: _ => Ok (Some (Close b))
      | [] => Raise (Exn IndexError "single positional indexer is out-of-bounds")
      end
    else
      (* line 89: abs((data.index.date - date.date()).days); a scalar
         assigned to a column fills it *)
      day <~ date_of date ;;
      days <~ getattr_days (ndarray_sub (map bar_date data) day) ;;
      let date_diff := map (fun _ => Z.abs days) data in
      match idxmin date_diff with
      | Some closest_idx =>
          match nth_error data closest_idx with
          | Some b => Ok (Some (Close b))
          | None => Raise (Exn IndexError "label not in index")
          end
      | None => Raise (Exn ValueError "attempt to get argmin of an empty sequence")
      end.

(** Lines 93-95: [except Exception] reports the error and returns [None]. *)
Definition get_stock_price
    (history : price_source) (symbol : string) (date : pyval) : option float :=
  match get_stock_price_body history symbol date with
  | Ok price => price
  | Raise _ => None
  end.

(* ===================================================================== *)
(** ** [check_target_or_sl_first] *)
(* ===================================================================== *)

(** The loop of lines 131-145 over the rows of [data], [entry] being
    [entry_date.date()]. *)
Fixpoint scan (entry : Z) (target_price sl_price : float) (data : DataFrame)
  : string :=
  match data with
  | [] => "Neither Hit"
  | row :: rest =>
      if entry <? bar_date row then
        if (target_price <=? High row)%float then "Target Hit"
        else if (Low row <=? sl_price)%float then "Stop Loss Hit"
        else scan entry target_price sl_price rest
      else scan entry target_price sl_price rest
  end.

(** The body of the [try] (lines 101-145). *)
Definition check_target_or_sl_first_body
    (history : price_source) (symbol : string) (entry_date : pyval)
    (entry_price target_price sl_price : float) : exc string :=
  let symbol_formatted := format_symbol symbol in
  entry_date <~ convert_date entry_date ;;
  let start_date := entry_date in
  end_date <~ add_timedelta entry_date 30 ;;
  data <~ history symbol_formatted start_date end_date ;;
  if empty data then Ok "No Data"
  else
    entry <~ date_of entry_date ;;
    Ok (scan entry target_price sl_price data).

(** Lines 147-148. *)
Definition check_target_or_sl_first
    (history : price_source) (symbol : string) (entry_date : pyval)
    (entry_price target_price sl_price : float) : string :=
  match check_target_or_sl_first_body history symbol entry_date
          entry_price target_price sl_price with
  | Ok outcome => outcome
  | Raise e => ("Error: " ++ str e)%string
  end.

(* ===================================================================== *)
(** ** Numbers of [main] *)
(* ===================================================================== *)

Module Num.
Local Open Scope float_scope.

(** [float(n)] for a count [n]; exact below 2^53. *)
Fixpoint of_pos (p : positive) : float :=
  match p with
  | xH => 1
  | xO q => 2 * of_pos q
  | xI q => 2 * of_pos q + 1
  end.

Definition of_Z (z : Z) : float :=
  match z with
  | Z0 => 0
  | Zpos p => of_pos p
  | Zneg p => - of_pos p
  end.

(** [a / b] on two [int]s: [ZeroDivisionError] on a zero divisor, else
    the quotient as a float (the counts of [main] are far below 2^53,
    where it is the float quotient of the two converted operands). *)
Definition truediv (a b : Z) : exc float :=
  if (b =? 0)%Z then Raise (Exn ZeroDivisionError "division by zero")
  else Ok (of_Z a / of_Z b).

(** [numpy.rint]: the nearest integer, halves to even.  Below 2^52 in
    magnitude, adding and removing 2^52 rounds to an integer in the
    rounding mode of the addition; from 2^52 on every float is one. *)
Definition two52 : float := 4503599627370496.

Definition rint (x : float) : float :=
  if abs x <? two52 then
    if x =? 0 then x
    else if 0 <? x then (x + two52) - two52
    else
      let r := (x - two52) + two52 in
      if r =? 0 then - 0 else r
  else x.

(** [round(x, ndigits)] on a numpy [float64] scalar, which is what an
    element of the [Close] column is: numpy multiplies by
    [10**ndigits], rounds with [rint] and divides back. *)
Definition round (x : float) (ndigits : Z) : float :=
  let f := of_Z (10 ^ ndigits) in
  rint (x * f) / f.

(** [column.sum()] on a float64 column: numpy's pairwise summation.
    Fewer than eight elements are added in order; up to 128 are added
    into eight running sums, element [i] into sum [i mod 8], the eight
    are added as a balanced tree and the elements left over by the last
    full group of eight are added in order; a longer column is cut in
    two at a multiple of eight and the two sums are added.  The
    reduction adds the result to the identity 0 (the sign of a zero
    total is that of numpy's version). *)
Definition add_in_order (res : float) (a : list float) : float :=
  fold_left (fun acc x => acc + x) a res.

Fixpoint add_groups_of_8 (r : list float) (a : list float)
  : list float * list float :=
  match a with
  | x0 :: x1 :: x2 :: x3 :: x4 :: x5 :: x6 :: x7 :: rest =>
      add_groups_of_8
        (map (fun p : float * float => fst p + snd p)
           (combine r [x0; x1; x2; x3; x4; x5; x6; x7]))
        rest
  | _ => (r, a)
  end.

Definition sum_block (a : list float) : float :=
  match a with
  | x0 :: x1 :: x2 :: x3 :: x4 :: x5 :: x6 :: x7 :: rest =>
      match add_groups_of_8 [x0; x1; x2; x3; x4; x5; x6; x7] rest with
      | ([r0; r1; r2; r3; r4; r5; r6; r7], left_over) =>
          add_in_order
            (((r0 + r1) + (r2 + r3)) + ((r4 + r5) + (r6 + r7))) left_over
      | (_, _) => add_in_order 0 a
      end
  | _ => add_in_order 0 a
  end.

Fixpoint pairwise_sum (fuel : nat) (a : list float) : float :=
  let n := length a in
  if (n <? 8)%nat then add_in_order 0 a
  else if (n <=? 128)%nat then sum_block a
  else
    match fuel with
    | O => sum_block a
    | S fuel' =>
        let n2 := (n / 2 - (n / 2) mod 8)%nat in
        pairwise_sum fuel' (firstn n2 a) + pairwise_sum fuel' (skipn n2 a)
    end.

Definition sum (column : list float) : float :=
  0 + pairwise_sum (length column) column.

(** A value that is an [int] on one path and a [float] on another. *)
Inductive pynum : Set :=
  | PInt (z : Z)
  | PFloat (f : float).

End Num.
Export Num.

(* ===================================================================== *)
(** ** The table of [main] *)
(* ===================================================================== *)

(** A row of the uploaded sheet (the four required columns). *)
Record trade : Set := Trade {
  date : pyval;
  symbol : string;
  marketcapname : string;
  sector : string
}.

(** A row of [df] once lines 179-182 have added their columns. *)
Record row : Set := Row {
  col_date : pyval;
  col_symbol : string;
  col_marketcapname : string;
  col_sector : string;
  col_close_price : float;
  col_target_pct : float;
  col_sl_pct : float;
  col_result : string
}.

Definition set_close_price (v : float) (r : row) : row :=
  Row (col_date r) (col_symbol r) (col_marketcapname r) (col_sector r)
      v (col_target_pct r) (col_sl_pct r) (col_result r).

Definition set_result (v : string) (r : row) : row :=
  Row (col_date r) (col_symbol r) (col_marketcapname r) (col_sector r)
      (col_close_price r) (col_target_pct r) (col_sl_pct r) v.

(** [df.at[idx, column] = v], the index of [df] being 0, 1, 2, ...
    as [read_excel] leaves it. *)
Definition at_set (idx : nat) (setter : row -> row) (df : list row) : list row :=
  alter setter idx df.

(** [df[column] == value] as a mask, [df.loc[mask, column] = v] on a
    column, and [len(df[mask])]. *)
Definition mask_eq (value : string) (column : list string) : list bool :=
  map (fun x => String.eqb x value) column.

Definition mask_isin (values : list string) (column : list string) : list bool :=
  map (fun x => existsb (String.eqb x) values) column.

Fixpoint loc_assign (mask : list bool) (v : float) (column : list float)
  : list float :=
  match mask, column with
  | m :: mask', x :: column' =>
      (if m then v else x) :: loc_assign mask' v column'
  | _, _ => column
  end.

Definition count_true (mask : list bool) : Z :=
  Z.of_nat (length (List.filter (fun m => m) mask)).

(** What [main] shows once it has run through. *)
Record report : Set := Report {
  display_df : list row;
  total_trades : Z;
  target_hit : Z;
  sl_hit : Z;
  no_result : Z;
  target_hit_share : float;
  sl_hit_share : float;
  no_result_share : float;
  pnl_pct : list float;
  total_pnl : float;
  win_rate : pynum;
  avg_pnl : pynum
}.

(** A pandas [Period] of frequency ['M']: a year and a month. *)
Definition period : Set := (Z * Z)%type.

(** [column.dt.to_period('M')] (line 293) on the converted date column:
    the month of each date; the accessor refuses a column of text. *)
Fixpoint dt_to_period (column : list pyval) : exc (list period) :=
  match column with
  | [] => Ok []
  | PDatetime d :: rest =>
      months <~ dt_to_period rest ;;
      let '(year, month, _) := _ord2ymd d in
      Ok ((year, month) :: months)
  | PStr _ :: _ =>
      Raise (Exn AttributeError
               "Can only use .dt accessor with datetimelike values")
  end.

(** The keys of the grouping of line 294, a month and a result, in the
    order pandas sorts them. *)
Definition key_ltb (a b : period * string) : bool :=
  let '((ya, ma), ra) := a in
  let '((yb, mb), rb) := b in
  (ya <? yb)
  || (ya =? yb) && ((ma <? mb) || (ma =? mb) && String.ltb ra rb).

Definition key_eqb (a b : period * string) : bool :=
  let '((ya, ma), ra) := a in
  let '((yb, mb), rb) := b in
  (ya =? yb) && (ma =? mb) && String.eqb ra rb.

(** One more row for the group of [key]. *)
Fixpoint count_in_group (key : period * string)
    (groups : list (period * string * nat)) : list (period * string * nat) :=
  match groups with
  | [] => [(key, 1%nat)]
  | (k, n) :: rest =>
      if key_eqb key k then (k, S n) :: rest
      else if key_ltb key k then (key, 1%nat) :: (k, n) :: rest
      else (k, n) :: count_in_group key rest
  end.

(** [df.groupby(['month', 'result']).size().reset_index(name='count')] *)
Definition groupby_size (keys : list (period * string))
  : list (period * string * nat) :=
  fold_left (fun groups key => count_in_group key groups) keys [].

(** [st.plotly_chart(fig_timeline)] (line 303): the x values of the
    figure are the [Period]s of [monthly_results]; the chart is sent as
    JSON, and the encoder raises on the first [Period] it meets. *)
Definition st_plotly_chart_timeline
    (monthly_results : list (period * string * nat)) : exc unit :=
  match monthly_results with
  | [] => Ok tt
  | _ :: _ =>
      Raise (Exn TypeError "Object of type Period is not JSON serializable")
  end.

Section Batch.

Variable history : price_source.
(** [pd.to_datetime(column, format='mixed')] of line 292, a parser of
    pandas: it may raise on text it cannot read; what it returns is a
    column of timestamps on the index of its argument. *)
Variable pd_to_datetime : list pyval -> exc (list pyval).
(** The two sidebar inputs. *)
Variables target_pct sl_pct : float.

(** Lines 179-182. *)
Definition init_columns (sheet : list trade) : list row :=
  map (fun t => Row (date t) (symbol t) (marketcapname t) (sector t)
                    0%float target_pct sl_pct "Processing...") sheet.

(** One turn of the loop of lines 189-215. *)
Definition loop_body (df : list row) (idx : nat) : list row :=
  match df !! idx with
  | None => df
  | Some row =>
      let close_price := get_stock_price history (col_symbol row) (col_date row) in
      match close_price with
      | Some close_price =>
          let df := at_set idx (set_close_price (round close_price 2)) df in
          let target_price := (close_price * (1 + target_pct / 100))%float in
          let sl_price := (close_price * (1 - sl_pct / 100))%float in
          let result :=
            check_target_or_sl_first history (col_symbol row) (col_date row)
              close_price target_price sl_price in
          at_set idx (set_result result) df
      | None =>
          let df := at_set idx (set_close_price 0%float) df in
          at_set idx (set_result "Price Not Found") df
      end
  end.

Definition process_rows (df : list row) : list row :=
  fold_left loop_body (seq 0 (length df)) df.

(** Line 313. *)
Definition compute_win_rate (target_hit sl_hit : Z) : exc pynum :=
  if target_hit + sl_hit >? 0 then
    q <~ truediv target_hit (target_hit + sl_hit) ;;
    Ok (PFloat (q * 100)%float)
  else Ok (PInt 0).

(** Lines 308-310. *)
Definition compute_pnl (results : list string) : list float :=
  let pnl := map (fun _ => 0%float) results in
  let pnl := loc_assign (mask_eq "Target Hit" results) target_pct pnl in
  loc_assign (mask_eq "Stop Loss Hit" results) (- sl_pct)%float pnl.

(** The body of the [try] of [main], from the sheet on (lines 175-325):
    the row loop, the counts and their shares (lines 235-250), the date
    conversion and the monthly chart (lines 292-303) and the profit and
    loss block.  The charts of lines 257-288 plot counts by result,
    sector and market cap and are displayed.  The sheet has the four
    required columns and no other, so that the renaming of line 225
    fits. *)
Definition main_body (sheet : list trade) : exc report :=
  let df := process_rows (init_columns sheet) in
  let shown := df in
  let results := map col_result df in
  let total_trades := Z.of_nat (length df) in
  let target_hit := count_true (mask_eq "Target Hit" results) in
  let sl_hit := count_true (mask_eq "Stop Loss Hit" results) in
  let no_result :=
    count_true (mask_isin ["Neither Hit"; "No Data"; "Price Not Found"] results) in
  q1 <~ truediv target_hit total_trades ;;
  q2 <~ truediv sl_hit total_trades ;;
  q3 <~ truediv no_result total_trades ;;
  dates <~ pd_to_datetime (map col_date df) ;;
  months <~ dt_to_period dates ;;
  let monthly_results := groupby_size (combine months results) in
  _ <~ st_plotly_chart_timeline monthly_results ;;
  let pnl := compute_pnl results in
  let total_pnl := sum pnl in
  win_rate <~ compute_win_rate target_hit sl_hit ;;
  let avg_pnl :=
    if total_trades >? 0 then PFloat (total_pnl / of_Z total_trades)%float
    else PInt 0 in
  Ok (Report shown total_trades target_hit sl_hit no_result
             (q1 * 100)%float (q2 * 100)%float (q3 * 100)%float
             pnl total_pnl win_rate avg_pnl).

(** [main] with its handler of lines 342-344: either the report, or the
    text of the error shown instead. *)
Definition main (sheet : list trade) : report + string :=
  match main_body sheet with
  | Ok r => inl r
  | Raise e => inr ("Error processing file: " ++ str e)%string
  end.

End Batch.

(* ===================================================================== *)
(** ** The contracts of the specification, for comparison *)
(* ===================================================================== *)

(** The rows of a frame the loop of lines 131-142 looks at: those dated
    after the entry day. *)
Definition forward (entry : Z) (data : DataFrame) : DataFrame :=
  List.filter (fun b => entry <? bar_date b) data.

(** [classify] of the specification on a series that is already the
    forward one: the first bar that reaches a threshold decides, the
    target being asked first. *)
Fixpoint classify (target_price sl_price : float) (series : DataFrame) : string :=
  match series with
  | [] => "Neither Hit"
  | b :: rest =>
      if (target_price <=? High b)%float then "Target Hit"
      else if (Low b <=? sl_price)%float then "Stop Loss Hit"
      else classify target_price sl_price rest
  end.

(** A bar that reaches neither threshold. *)
Definition undecided (target_price sl_price : float) (b : bar) : Prop :=
  (target_price <=? High b)%float = false /\ (Low b <=? sl_price)%float = false.

(** The four formats in the order the specification gives them, and the
    first of a list of formats that parses a string. *)
Definition date_formats : list string :=
  ["%d/%m/%Y"; "%d-%m-%Y"; "%m/%d/%Y"; "%Y-%m-%d"].

Fixpoint first_parse (formats : list string) (s : string) : option datetime :=
  match formats with
  | [] => None
  | f :: formats' =>
      match strptime s f with
      | Ok d => Some d
      | Raise _ => first_parse formats' s
      end
  end.

(** The [datetime] the conversion block leaves in [date], if any. *)
Definition parsed (r : exc pyval) : option datetime :=
  match r with
  | Ok (PDatetime d) => Some d
  | _ => None
  end.

(** The resolver of the specification on a fetched window: the close of
    the bar on the target day, else of the bar nearest in days, the
    earliest of two equally near. *)
Definition resolve_spec (data : DataFrame) (target : Z) : option float :=
  match List.find (fun b => bar_date b =? target) data with
  | Some b => Some (Close b)
  | None =>
      match idxmin (map (fun b => Z.abs (bar_date b - target)) data) with
      | Some i => option_map Close (nth_error data i)
      | None => None
      end
  end.

(** What one turn of the row loop makes of a row. *)
Definition process_one (history : price_source) (target_pct sl_pct : float)
    (r : row) : row :=
  match get_stock_price history (col_symbol r) (col_date r) with
  | Some close_price =>
      set_result
        (check_target_or_sl_first history (col_symbol r) (col_date r)
           close_price
           (close_price * (1 + target_pct / 100))%float
           (close_price * (1 - sl_pct / 100))%float)
        (set_close_price (round close_price 2) r)
  | None => set_result "Price Not Found" (set_close_price 0%float r)
  end.

(** The profit or loss of a row by its outcome, as the specification
    words it. *)
Definition pnl_of (target_pct sl_pct : float) (outcome : string) : float :=
  if String.eqb outcome "Target Hit" then target_pct
  else if String.eqb outcome "Stop Loss Hit" then (- sl_pct)%float
  else 0%float.


(* ===================================================================== *)
(** ** [main] from the uploaded sheet on *)
(* ===================================================================== *)

(** Line 170. *)
Definition required_columns : list string :=
  ["date"; "symbol"; "marketcapname"; "sector"].

(** Line 225. *)
Definition display_names : list string :=
  ["Date"; "Symbol"; "Market Cap"; "Sector"; "Close Price"; "Target %";
   "SL %"; "Result"].

(** [col in df.columns] *)
Definition has_column (columns : list string) (col : string) : bool :=
  existsb (String.eqb col) columns.

(** [df[name] = value] on the columns of a frame: a name the frame has
    keeps its place, a new one goes last. *)
Definition add_column (name : string) (columns : list string) : list string :=
  if has_column columns name then columns else columns ++ [name].

(** [str(n)] for a length. *)
Definition str_of_nat (n : nat) : string :=
  NilEmpty.string_of_uint (Nat.to_uint n).

(** [frame.columns = names]: pandas refuses a list of another length. *)
Definition set_columns (columns names : list string) : exc (list string) :=
  if (length columns =? length names)%nat then Ok names
  else
    Raise (Exn ValueError
             ("Length mismatch: Expected axis has " ++ str_of_nat (length columns)
              ++ " elements, new values have " ++ str_of_nat (length names)
              ++ " elements")%string).

(** What a run of the page ends in. *)
Inductive page : Set :=
  | Waiting                      (* no file uploaded: line 160 *)
  | Stopped (message : string)   (* [st.error] and [st.stop()]: lines 172-173 *)
  | Failed (message : string)    (* the handler of lines 342-344 *)
  | Shown (r : report).

(** [main] (lines 151-344) on what [read_excel] made of the upload: the
    names of the columns and the rows, of which the four required
    columns are kept.  [read_excel] gives distinct names to columns. *)
Definition main_upload
    (history : price_source) (pd_to_datetime : list pyval -> exc (list pyval))
    (target_pct sl_pct : float)
    (uploaded_file : option (list string * list trade)) : page :=
  match uploaded_file with
  | None => Waiting
  | Some (columns, sheet) =>
      if negb (forallb (has_column columns) required_columns) then
        Stopped
          "Missing required columns. Required: ['date', 'symbol', 'marketcapname', 'sector']"
      else
        let columns :=
          add_column "result"
            (add_column "sl_pct"
               (add_column "target_pct" (add_column "close_price" columns))) in
        match
          (_ <~ set_columns columns display_names ;;
           main_body history pd_to_datetime target_pct sl_pct sheet)
        with
        | Ok r => Shown r
        | Raise e => Failed ("Error processing file: " ++ str e)%string
        end
  end.

(** An outcome text of the form [f"Error: {...}"] (line 148). *)
Definition is_error (outcome : string) : bool :=
  String.prefix "Error: " outcome.

(** [len(df[mask])] for the rows whose result is an error text. *)
Definition count_errors (results : list string) : Z :=
  count_true (map is_error results).

(** The outcomes the statistics know, and the error texts. *)
Definition known_outcome (outcome : string) : Prop :=
  In outcome ["Target Hit"; "Stop Loss Hit"; "Neither Hit"; "No Data";
              "Price Not Found"]
  \/ is_error outcome = true.

(** A bar the loop of lines 131-142 passes over: on or before the entry
    day, or reaching neither threshold. *)
Definition passed_over (entry : Z) (target_price sl_price : float) (b : bar)
  : Prop :=
  entry < bar_date b -> undecided target_price sl_price b.
(* ===================================================================== *)
(** ** Sample inputs *)
(* ===================================================================== *)

Module Sample.

(** 2023-12-25, the entry day of the samples. *)
Definition day0 : Z := 738879.

Definition flat (day : Z) (high low close : float) : bar :=
  Bar day close high low close.

(** A source that answers every request with the same frame. *)
Definition always (data : DataFrame) : price_source :=
  fun _ _ _ => Ok data.

(** A quiet day, then a day that touches both thresholds 103 and 98. *)
Definition both_touched : DataFrame :=
  [ flat (day0 + 1) 101 99 100; flat (day0 + 2) 104 97 100 ].

(** The entry day itself crossing both thresholds, a quiet month, and
    the target reached on the thirtieth day after entry. *)
Definition edge_of_window : DataFrame :=
  [ flat day0 110 90 100; flat (day0 + 1) 101 99 100;
    flat (day0 + 30) 103 99 100 ].

(** Only the entry day's bar. *)
Definition entry_day_only : DataFrame := [ flat day0 110 90 100 ].

(** The window fetched around Sunday 2023-12-24: the Friday before and
    the Monday after, no bar on the day itself. *)
Definition around_weekend : DataFrame :=
  [ flat (day0 - 3) 100 98 99.5; flat day0 102 99 101 ].

(** 100.004, the binary64 value nearest to it. *)
Definition close_100_004 : float := 0x1.9004189374bc7p+6.

(** A small market.  WIN reaches the target on the day after entry,
    LOSE the stop-loss; EDGE closes at 100.004 and tops at 103 the day
    after; for DOWN the source raises; for FLAKY it answers the
    resolver and raises on the request that starts on the entry day;
    for anything else it has no rows. *)
Definition market : price_source :=
  fun sym start _ =>
    if String.eqb sym "WIN.NS" then
      Ok [ flat day0 101 99 100; flat (day0 + 1) 104 99 103 ]
    else if String.eqb sym "LOSE.NS" then
      Ok [ flat day0 101 99 100; flat (day0 + 1) 101 97 98 ]
    else if String.eqb sym "EDGE.NS" then
      Ok [ flat day0 101 99 close_100_004; flat (day0 + 1) 103 99 102 ]
    else if String.eqb sym "DOWN.NS" then
      Raise (Exn SourceError "connection reset")
    else if String.eqb sym "FLAKY.NS" then
      match start with
      | PDatetime d =>
          if d =? day0 then Raise (Exn SourceError "connection reset")
          else Ok [ flat day0 101 99 100 ]
      | PStr _ => Ok []
      end
    else Ok [].

Definition to_datetime_ok : list pyval -> exc (list pyval) :=
  fun column => Ok column.

Definition on_day0 (sym : string) : trade :=
  Trade (PStr "25/12/2023") sym "Large Cap" "Energy".

Definition sheet_mixed : list trade :=
  [ on_day0 "WIN"; on_day0 "LOSE"; on_day0 "DOWN"; on_day0 "NONE";
    Trade (PStr "12-25-2023") "WIN" "Large Cap" "Energy" ].

End Sample.

(* ===================================================================== *)
(** ** Further sample inputs *)
(* ===================================================================== *)

Module Cases.


(** An upload with the required columns in another order, one with the
    sector column missing, and one with a column too many. *)
Definition columns_reordered : list string :=
  ["symbol"; "date"; "sector"; "marketcapname"].

Definition columns_short : list string := ["date"; "symbol"; "marketcapname"].

Definition columns_wide : list string :=
  ["date"; "symbol"; "marketcapname"; "sector"; "notes"].

Definition two_trades : list trade := [Sample.on_day0 "WIN"; Sample.on_day0 "LOSE"].

(** A date conversion that refuses its column. *)
Definition to_datetime_fails : list pyval -> exc (list pyval) :=
  fun _ => Raise (Exn ValueError "Unknown datetime string format").

(** A date conversion that reads each cell with the formats of the
    source and returns timestamps, as the converter of line 292 does on
    the sample sheets. *)
Fixpoint to_datetime_parsed (column : list pyval) : exc (list pyval) :=
  match column with
  | [] => Ok []
  | PDatetime d :: rest =>
      dates <~ to_datetime_parsed rest ;; Ok (PDatetime d :: dates)
  | PStr s :: rest =>
      match first_parse date_formats s with
      | Some d => dates <~ to_datetime_parsed rest ;; Ok (PDatetime d :: dates)
      | None => Raise (Exn ValueError "Unknown datetime string format")
      end
  end.

End Cases.

(* ===================================================================== *)
(** ** [strptime] on sample strings *)
(* ===================================================================== *)

Example strptime_dmy : strptime "25/12/2023" "%d/%m/%Y" = mk_datetime 2023 12 25.
Proof. reflexivity. Qed.
Example strptime_dmy_bad : exists e, strptime "12-25-2023" "%d-%m-%Y" = Raise e.
Proof. eexists. vm_compute. reflexivity. Qed.
Example strptime_iso : strptime "2023-12-25" "%Y-%m-%d" = mk_datetime 2023 12 25.
Proof. reflexivity. Qed.
Example strptime_short : strptime "1/2/2024" "%d/%m/%Y" = mk_datetime 2024 2 1.
Proof. reflexivity. Qed.
Example strptime_feb30 : exists e, strptime "30/02/2024" "%d/%m/%Y" = Raise e.
Proof. eexists. vm_compute. reflexivity. Qed.

(* ===================================================================== *)
(** ** The calendar and the column sum on sample values *)
(* ===================================================================== *)

Example ord2ymd_of_ymd2ord :
  _ord2ymd (_ymd2ord 2023 12 25) = (2023, 12, 25)
  /\ _ord2ymd (_ymd2ord 2024 2 29) = (2024, 2, 29)
  /\ _ord2ymd (_ymd2ord 2024 3 1) = (2024, 3, 1)
  /\ _ord2ymd (_ymd2ord 2000 12 31) = (2000, 12, 31)
  /\ _ord2ymd (_ymd2ord 1900 3 1) = (1900, 3, 1)
  /\ _ord2ymd MINORD = (1, 1, 1)
  /\ _ord2ymd MAXORD = (9999, 12, 31).
Proof. repeat split; reflexivity. Qed.

(** Ten rows of one tenth: the pairwise sum is 1, where adding in order
    falls short of it. *)
Example sum_of_ten_tenths :
  sum (repeat (1 / 10)%float 10) = 1%float
  /\ (add_in_order 0 (repeat (1 / 10)%float 10) <? 1)%float = true.
Proof. split; reflexivity. Qed.

Example repr_of_text :
  repr "12-25-2023" = "'12-25-2023'"
  /\ repr "it's" = (dquote ++ "it's" ++ dquote)%string
  /\ repr "a\b" = "'a\\b'".
Proof. repeat split; reflexivity. Qed.

(* ===================================================================== *)
(** ** The outcome classifier *)
(* ===================================================================== *)

Section Classifier.

Variables (entry : Z) (target_price sl_price : float).

Lemma scan_forward (data : DataFrame) :
  scan entry target_price sl_price data
  = classify target_price sl_price (forward entry data).
Proof.
  induction data as [|b data IH]; simpl; [reflexivity|].
  destruct (entry <? bar_date b); simpl; [|exact IH].
  rewrite IH. reflexivity.
Qed.

Lemma classify_undecided_prefix (pre rest : DataFrame) :
  Forall (undecided target_price sl_price) pre ->
  classify target_price sl_price (pre ++ rest)
  = classify target_price sl_price rest.
Proof.
  induction 1 as [|b pre [Hh Hl] _ IH]; simpl; [reflexivity|].
  rewrite Hh, Hl. exact IH.
Qed.

Lemma scan_skips_prefix (pre rest : DataFrame) :
  Forall (fun x => entry < bar_date x -> undecided target_price sl_price x) pre ->
  scan entry target_price sl_price (pre ++ rest)
  = scan entry target_price sl_price rest.
Proof.
  induction 1 as [|b pre Hb _ IH]; simpl; [reflexivity|].
  destruct (Z.ltb_spec entry (bar_date b)) as [Hlt|_]; [|exact IH].
  destruct (Hb Hlt) as [Hh Hl]. rewrite Hh, Hl. exact IH.
Qed.

End Classifier.

(** The classifier, once the entry date has been read and the frame
    fetched. *)
Lemma check_fetched history symbol entry_date d ep tp sp data :
  convert_date entry_date = Ok (PDatetime d) ->
  1 <= d + 30 <= MAXORD ->
  history (format_symbol symbol) (PDatetime d) (PDatetime (d + 30)) = Ok data ->
  check_target_or_sl_first history symbol entry_date ep tp sp
  = if empty data then "No Data" else scan d tp sp data.
Proof.
  intros Hc Hr Hh.
  unfold check_target_or_sl_first, check_target_or_sl_first_body.
  rewrite Hc. simpl. unfold add_days, MINORD.
  replace ((1 <=? d + 30) && (d + 30 <=? MAXORD)) with true
    by (symmetry; apply andb_true_iff; split; apply Z.leb_le; lia).
  simpl. rewrite Hh. simpl. destruct (empty data); reflexivity.
Qed.

(** C1. Within one bar the target is asked before the stop-loss: when the
    scan reaches a bar after the entry day (no earlier forward bar having
    reached a threshold) whose high is at or above the target price and
    whose low is at or below the stop-loss price, the classifier answers
    "Target Hit", and so not "Stop Loss Hit". *)
Theorem C1_target_checked_before_stop_loss
    (history : price_source) (symbol : string) (entry_date : pyval) (d : Z)
    (entry_price target_price sl_price : float)
    (pre post : DataFrame) (b : bar) :
  convert_date entry_date = Ok (PDatetime d) ->
  1 <= d + 30 <= MAXORD ->
  history (format_symbol symbol) (PDatetime d) (PDatetime (d + 30))
    = Ok (pre ++ b :: post) ->
  Forall (fun x => d < bar_date x -> undecided target_price sl_price x) pre ->
  d < bar_date b ->
  (target_price <=? High b)%float = true ->
  (Low b <=? sl_price)%float = true ->
  check_target_or_sl_first history symbol entry_date
    entry_price target_price sl_price = "Target Hit"
  /\ check_target_or_sl_first history symbol entry_date
       entry_price target_price sl_price <> "Stop Loss Hit".
Proof.
  intros Hc Hr Hh Hpre Hd Hhigh _.
  assert (E : check_target_or_sl_first history symbol entry_date
                entry_price target_price sl_price = "Target Hit").
  { rewrite (check_fetched _ _ _ _ _ _ _ _ Hc Hr Hh).
    replace (empty (pre ++ b :: post)) with false by (destruct pre; reflexivity).
    rewrite scan_skips_prefix by exact Hpre.
    simpl. apply Z.ltb_lt in Hd. rewrite Hd, Hhigh. reflexivity. }
  split; [exact E|]. rewrite E. discriminate.
Qed.

Lemma C1_target_checked_before_stop_loss_witness :
  check_target_or_sl_first (Sample.always Sample.both_touched) "RELIANCE"
    (PStr "25/12/2023") 100 103 98 = "Target Hit"
  /\ check_target_or_sl_first (Sample.always Sample.both_touched) "RELIANCE"
       (PStr "25/12/2023") 100 103 98 <> "Stop Loss Hit".
Proof.
  apply (C1_target_checked_before_stop_loss
           (Sample.always Sample.both_touched) "RELIANCE" (PStr "25/12/2023")
           Sample.day0 100 103 98
           [Sample.flat (Sample.day0 + 1) 101 99 100] []
           (Sample.flat (Sample.day0 + 2) 104 97 100)).
  - reflexivity.
  - vm_compute. split; discriminate.
  - reflexivity.
  - constructor; [|constructor]. intros _. split; reflexivity.
  - reflexivity.
  - reflexivity.
  - reflexivity.
Defined.

(** Of the rows a source that excludes its end returns for the request
    from the entry day to thirty days later, those after the entry day
    are the rows dated from the day after entry to the twenty-ninth day
    after it. *)
Lemma forward_of_fetched (d : Z) (bars : DataFrame) :
  forward d
    (List.filter (fun b => (d <=? bar_date b) && (bar_date b <? d + 30)) bars)
  = List.filter (fun b => (d + 1 <=? bar_date b) && (bar_date b <=? d + 29)) bars.
Proof.
  unfold forward. induction bars as [|b bars IH]; simpl; [reflexivity|].
  destruct (Z.leb_spec d (bar_date b)) as [H1|H1];
    destruct (Z.ltb_spec (bar_date b) (d + 30)) as [H2|H2]; simpl;
    destruct (Z.ltb_spec d (bar_date b)) as [H3|H3];
    destruct (Z.leb_spec (d + 1) (bar_date b)) as [H4|H4];
    destruct (Z.leb_spec (bar_date b) (d + 29)) as [H5|H5];
    simpl; try lia; rewrite ?IH; reflexivity.
Qed.

(** C2, as stated, fails on the thirtieth day: the bars an exchange has
    hold one dated entry day + 30 whose high reaches the target, the
    source returns the rows before its end date, and the classifier,
    which never sees that bar, answers "Neither Hit". *)
Lemma C2_thirtieth_day_counterexample :
  In (Sample.flat (Sample.day0 + 30) 103 99 100) Sample.edge_of_window
  /\ (103 <=? High (Sample.flat (Sample.day0 + 30) 103 99 100))%float = true
  /\ check_target_or_sl_first (yf_history (fun _ => Sample.edge_of_window))
       "RELIANCE" (PStr "25/12/2023") 100 103 98 = "Neither Hit".
Proof. split; [simpl; tauto|]. split; reflexivity. Qed.

(** C2, amended. The classifier asks the source for the days from the
    entry day to thirty days later and scans, in order, the returned bars
    dated after the entry day, with no upper bound of its own: its
    outcome is the classification of those bars.  With the source that
    excludes its end date, they are the bars dated entry day + 1 to entry
    day + 29: a bar dated entry day + 30 is not fetched, and a bar on or
    before the entry day is never looked at, whatever its high and
    low. *)
Theorem C2_scan_window_is_the_fetched_frame
    (history : price_source) (market : string -> DataFrame)
    (sym : string) (entry_date : pyval) (d : Z)
    (entry_price target_price sl_price : float) (data : DataFrame) :
  convert_date entry_date = Ok (PDatetime d) ->
  1 <= d + 30 <= MAXORD ->
  history (format_symbol sym) (PDatetime d) (PDatetime (d + 30)) = Ok data ->
  data <> [] ->
  List.filter (fun b => (d <=? bar_date b) && (bar_date b <? d + 30))
    (market (format_symbol sym)) <> [] ->
  check_target_or_sl_first history sym entry_date
    entry_price target_price sl_price
  = classify target_price sl_price
      (List.filter (fun b => d <? bar_date b) data)
  /\ check_target_or_sl_first (yf_history market) sym entry_date
       entry_price target_price sl_price
     = classify target_price sl_price
         (List.filter (fun b => (d + 1 <=? bar_date b) && (bar_date b <=? d + 29))
            (market (format_symbol sym))).
Proof.
  intros Hc Hr Hh Hne Hfetched. split.
  - rewrite (check_fetched _ _ _ _ _ _ _ _ Hc Hr Hh).
    destruct data; [congruence|]. simpl empty. cbv iota.
    apply scan_forward.
  - rewrite (check_fetched (yf_history market) sym entry_date d _ _ _
               (List.filter (fun b => (d <=? bar_date b) && (bar_date b <? d + 30))
                  (market (format_symbol sym))) Hc Hr eq_refl).
    destruct (List.filter _ (market (format_symbol sym))) eqn:E; [congruence|].
    simpl empty. cbv iota. rewrite <- E.
    rewrite scan_forward, forward_of_fetched. reflexivity.
Qed.

Lemma C2_scan_window_is_the_fetched_frame_witness :
  check_target_or_sl_first (Sample.always Sample.edge_of_window) "RELIANCE"
    (PStr "25/12/2023") 100 103 98
  = classify 103 98
      (List.filter (fun b => Sample.day0 <? bar_date b) Sample.edge_of_window)
  /\ check_target_or_sl_first (yf_history (fun _ => Sample.edge_of_window))
       "RELIANCE" (PStr "25/12/2023") 100 103 98
     = classify 103 98
         (List.filter
            (fun b => (Sample.day0 + 1 <=? bar_date b)
                      && (bar_date b <=? Sample.day0 + 29))
            Sample.edge_of_window).
Proof.
  apply (C2_scan_window_is_the_fetched_frame
           (Sample.always Sample.edge_of_window) (fun _ => Sample.edge_of_window)
           "RELIANCE" (PStr "25/12/2023") Sample.day0 100 103 98
           Sample.edge_of_window).
  - reflexivity.
  - vm_compute. split; discriminate.
  - reflexivity.
  - discriminate.
  - vm_compute. discriminate.
Defined.

(** On the sample bars: a source that hands over the bar of the
    thirtieth day lets it decide, the entry day's own bar, which crosses
    both thresholds, deciding nothing; the source that excludes its end
    date leaves "Neither Hit". *)
Example edge_of_window_outcomes :
  check_target_or_sl_first (Sample.always Sample.edge_of_window) "RELIANCE"
    (PStr "25/12/2023") 100 103 98 = "Target Hit"
  /\ check_target_or_sl_first (yf_history (fun _ => Sample.edge_of_window))
       "RELIANCE" (PStr "25/12/2023") 100 103 98 = "Neither Hit".
Proof. split; reflexivity. Qed.

(* ===================================================================== *)
(** ** Date parsing *)
(* ===================================================================== *)

Section StrptimeFacts.

Lemma contains_app (x : ascii) (a b : string) :
  contains x (a ++ b)%string = contains x a || contains x b.
Proof.
  induction a as [|c a IH]; simpl; [reflexivity|].
  rewrite IH, orb_assoc. reflexivity.
Qed.

Lemma append_empty_r (a : string) : (a ++ "")%string = a.
Proof. induction a as [|c a IH]; simpl; [reflexivity|]. rewrite IH. reflexivity. Qed.

Lemma first_some_inv {A B} (f : A -> option B) (l : list A) (b : B) :
  first_some f l = Some b -> exists a, In a l /\ f a = Some b.
Proof.
  induction l as [|a l IH]; simpl; [discriminate|].
  destruct (f a) as [b'|] eqn:E.
  - intros [= <-]. exists a. split; [left; reflexivity|exact E].
  - intros H. destruct (IH H) as (a' & Hin & Ha'). exists a'. split; [right; exact Hin|exact Ha'].
Qed.

Lemma match_branch_spec (b : list atom) :
  forall s m r,
    match_branch b s = Some (m, r) ->
    s = (m ++ r)%string
    /\ (forall x, contains x m = true -> branch_admits b x = true)
    /\ (forall c, In (Char c) b -> contains c m = true).
Proof.
  induction b as [|a b IH]; intros s m r; simpl.
  - intros [= <- <-]. repeat split; [discriminate|contradiction].
  - destruct s as [|c s]; [discriminate|].
    destruct (atom_matches a c) eqn:Ha; [|discriminate].
    destruct (match_branch b s) as [[m' r']|] eqn:Hb; [|discriminate].
    intros [= <- <-]. destruct (IH _ _ _ Hb) as (Hs & Hadm & Hlit).
    split; [simpl; rewrite Hs; reflexivity|]. split.
    + intros x. simpl. intros Hx. apply orb_true_iff in Hx as [Hx|Hx].
      * apply Ascii.eqb_eq in Hx. subst x. rewrite Ha. reflexivity.
      * rewrite (Hadm x Hx). apply orb_true_r.
    + intros c0 [->|Hin]; simpl.
      * simpl in Ha. apply Ascii.eqb_eq in Ha. subst c.
        rewrite Ascii.eqb_refl. reflexivity.
      * rewrite (Hlit c0 Hin). apply orb_true_r.
Qed.

Lemma re_match_spec (fmt : list directive) :
  forall s found rest,
    re_match fmt s = Some (found, rest) ->
    exists m,
      s = (m ++ rest)%string
      /\ (forall x, contains x m = true -> fmt_admits fmt x = true)
      /\ (forall c, In (Lit c) fmt -> contains c m = true).
Proof.
  induction fmt as [|d fmt IH]; intros s found rest; simpl.
  - intros [= <- <-]. exists EmptyString.
    repeat split; [discriminate|contradiction].
  - intros H. apply first_some_inv in H as (b & Hin & H).
    destruct (match_branch b s) as [[m1 r1]|] eqn:Hb; [|discriminate].
    destruct (re_match fmt r1) as [[found' rest']|] eqn:Hr; [|discriminate].
    injection H as <- <-.
    destruct (match_branch_spec _ _ _ _ Hb) as (Hs1 & Hadm1 & Hlit1).
    destruct (IH _ _ _ Hr) as (m2 & Hs2 & Hadm2 & Hlit2).
    exists (m1 ++ m2)%string. split; [|split].
    + rewrite Hs1, Hs2. clear. induction m1 as [|c m1 IHm]; simpl; [reflexivity|].
      rewrite IHm. reflexivity.
    + intros x Hx. rewrite contains_app in Hx.
      apply orb_true_iff in Hx as [Hx|Hx].
      * apply orb_true_iff. left. apply existsb_exists.
        exists b. split; [exact Hin|exact (Hadm1 x Hx)].
      * rewrite (Hadm2 x Hx). apply orb_true_r.
    + intros c [->|Hc]; rewrite contains_app.
      * simpl in Hin. destruct Hin as [<-|[]].
        rewrite (Hlit1 c); [reflexivity|left; reflexivity].
      * rewrite (Hlit2 c Hc). apply orb_true_r.
Qed.

(** What a successful [strptime] says of the characters of its string:
    every literal of the format occurs in it, and nothing occurs in it
    that the format does not accept. *)
Lemma strptime_chars (s format : string) (fmt : list directive) (d : datetime) :
  parse_format format = Ok fmt ->
  strptime s format = Ok d ->
  (forall c, In (Lit c) fmt -> contains c s = true)
  /\ (forall x, contains x s = true -> fmt_admits fmt x = true).
Proof.
  unfold strptime. intros -> . simpl.
  destruct (re_match fmt s) as [[found rest]|] eqn:Hm; [|discriminate].
  destruct (String.eqb rest "") eqn:Hrest; simpl; [|discriminate].
  apply String.eqb_eq in Hrest. subst rest. intros _.
  destruct (re_match_spec _ _ _ _ Hm) as (m & Hs & Hadm & Hlit).
  rewrite append_empty_r in Hs. subst m. split; assumption.
Qed.

Lemma slash_formats_need_slash (s : string) (d : datetime) :
  strptime s "%d/%m/%Y" = Ok d \/ strptime s "%m/%d/%Y" = Ok d ->
  contains "/" s = true.
Proof.
  intros [H|H];
    (eapply strptime_chars in H; [|reflexivity]);
    destruct H as [Hlit _]; apply Hlit; simpl; tauto.
Qed.

Lemma dash_formats_need_dash (s : string) (d : datetime) :
  strptime s "%d-%m-%Y" = Ok d \/ strptime s "%Y-%m-%d" = Ok d ->
  contains "-" s = true.
Proof.
  intros [H|H];
    (eapply strptime_chars in H; [|reflexivity]);
    destruct H as [Hlit _]; apply Hlit; simpl; tauto.
Qed.

Lemma dash_day_first_has_no_slash (s : string) (d : datetime) :
  strptime s "%d-%m-%Y" = Ok d -> contains "/" s = false.
Proof.
  intros H. eapply strptime_chars in H; [|reflexivity].
  destruct H as [_ Hadm].
  destruct (contains "/" s) eqn:E; [|reflexivity].
  specialize (Hadm _ E). vm_compute in Hadm. discriminate.
Qed.

End StrptimeFacts.

(** The conversion block picks the first of the four formats, in the
    order day/month/year, day-month-year, month/day/year,
    year-month-day, that parses the string. *)
Lemma convert_date_first_parse (s : string) :
  parsed (convert_date (PStr s)) = first_parse date_formats s.
Proof.
  unfold convert_date, date_formats, first_parse.
  destruct (strptime s "%d/%m/%Y") as [d1|e1] eqn:E1.
  { rewrite (slash_formats_need_slash s d1) by (left; exact E1). reflexivity. }
  destruct (strptime s "%d-%m-%Y") as [d2|e2] eqn:E2.
  { rewrite (dash_day_first_has_no_slash s d2 E2).
    rewrite (dash_formats_need_dash s d2) by (left; exact E2). reflexivity. }
  destruct (strptime s "%m/%d/%Y") as [d3|e3] eqn:E3.
  { rewrite (slash_formats_need_slash s d3) by (right; exact E3). reflexivity. }
  destruct (strptime s "%Y-%m-%d") as [d4|e4] eqn:E4.
  { destruct (contains "/" s); [reflexivity|].
    rewrite (dash_formats_need_dash s d4) by (right; exact E4). reflexivity. }
  destruct (contains "/" s); [reflexivity|].
  destruct (contains "-" s); reflexivity.
Qed.

(** C3, as stated, fails on the dashed month-first example: no format of
    the source reads "12-25-2023", so the conversion raises instead of
    falling back to a month-first reading. *)
Lemma C3_dashed_month_first_counterexample :
  convert_date (PStr "12-25-2023")
  = Raise (Exn ValueError
             "time data '12-25-2023' does not match format '%Y-%m-%d'")
  /\ ~ (exists d, convert_date (PStr "12-25-2023") = Ok (PDatetime d)).
Proof.
  split; [reflexivity|]. intros [d H]. vm_compute in H. discriminate.
Qed.

(** C3, amended. A date string is read by the first of the formats
    day/month/year, day-month-year, month/day/year, year-month-day that
    parses it.  "25/12/2023" is read as day 25 of month 12;
    "12/25/2023", which is no day/month/year date, falls back to the
    month-first format; "12-25-2023" is read by none of the four (the
    month-first format is written with slashes) and the conversion
    raises. *)
Theorem C3_date_format_priority :
  (forall s, parsed (convert_date (PStr s)) = first_parse date_formats s)
  /\ convert_date (PStr "25/12/2023")
     = (d <~ mk_datetime 2023 12 25 ;; Ok (PDatetime d))
  /\ ((exists e, strptime "12/25/2023" "%d/%m/%Y" = Raise e)
      /\ convert_date (PStr "12/25/2023")
         = (d <~ mk_datetime 2023 12 25 ;; Ok (PDatetime d)))
  /\ (first_parse date_formats "12-25-2023" = None
      /\ exists e, convert_date (PStr "12-25-2023") = Raise e).
Proof.
  split; [exact convert_date_first_parse|].
  split; [reflexivity|].
  split; [split; [eexists|]; reflexivity|].
  split; [reflexivity|eexists; reflexivity].
Qed.

(* ===================================================================== *)
(** ** The price resolver *)
(* ===================================================================== *)

Section Idxmin.

Lemma idxmin_nonempty (x : Z) (l : list Z) : exists i, idxmin (x :: l) = Some i.
Proof.
  simpl. destruct (idxmin l) as [j|]; [|eexists; reflexivity].
  destruct (nth_error l j) as [y|]; [|eexists; reflexivity].
  destruct (x <=? y); eexists; reflexivity.
Qed.

(** [idxmin] points at a least element, and at the first such: all
    elements are at least it, those before it are greater. *)
Lemma idxmin_spec (l : list Z) (i : nat) :
  idxmin l = Some i ->
  exists m,
    nth_error l i = Some m
    /\ (forall j y, nth_error l j = Some y -> m <= y)
    /\ (forall j y, (j < i)%nat -> nth_error l j = Some y -> m < y).
Proof.
  revert i. induction l as [|x l IH]; intros i; simpl; [discriminate|].
  destruct (idxmin l) as [j|] eqn:Ej.
  - destruct (IH j eq_refl) as (m & Hm & Hle & Hlt).
    rewrite Hm. destruct (Z.leb_spec x m) as [Hxm|Hxm]; intros [= <-].
    + exists x. split; [reflexivity|]. split.
      * intros [|k] y; simpl; [intros [= <-]; lia|].
        intros Hk. specialize (Hle _ _ Hk). lia.
      * intros k y Hk. lia.
    + exists m. split; [exact Hm|]. split.
      * intros [|k] y; simpl; [intros [= <-]; lia|]. apply Hle.
      * intros [|k] y Hk; simpl; [intros [= <-]; lia|].
        apply Hlt. lia.
  - intros [= <-]. destruct l as [|y l]; [|destruct (idxmin_nonempty y l); congruence].
    exists x. split; [reflexivity|]. split.
    + intros [|k] y; simpl; [intros [= <-]; lia|]. destruct k; discriminate.
    + intros k y Hk. lia.
Qed.

End Idxmin.

(** Lines 85-86: asking whether the day is in the index and then taking
    the first row that has it is a search for the first such row. *)
Lemma exact_day_lookup (d : Z) (data : DataFrame) (otherwise : exc (option float)) :
  (if existsb (fun b => bar_date b =? d) data then
     match List.filter (fun b => bar_date b =? d) data with
     | b :: _ => Ok (Some (Close b))
     | [] => Raise (Exn IndexError "single positional indexer is out-of-bounds")
     end
   else otherwise)
  = match List.find (fun b => bar_date b =? d) data with
    | Some b => Ok (Some (Close b))
    | None => otherwise
    end.
Proof.
  induction data as [|b data IH]; simpl; [reflexivity|].
  destruct (bar_date b =? d); simpl; [reflexivity|exact IH].
Qed.

(** The resolver, once the date has been read and the window fetched:
    without a bar on the day itself, line 89 asks a numpy array for the
    attribute [days] and raises. *)
Lemma resolver_fetched history symbol date d data :
  convert_date date = Ok (PDatetime d) ->
  1 <= d - 7 -> d + 7 <= MAXORD ->
  history (format_symbol symbol) (PDatetime (d - 7)) (PDatetime (d + 7)) = Ok data ->
  get_stock_price_body history symbol date
  = if empty data then Ok None
    else match List.find (fun b => bar_date b =? d) data with
         | Some b => Ok (Some (Close b))
         | None =>
             Raise (Exn AttributeError
                      "'numpy.ndarray' object has no attribute 'days'")
         end.
Proof.
  intros Hc Hlo Hhi Hh. unfold get_stock_price_body.
  rewrite Hc. simpl. unfold add_days, MINORD.
  replace (d + - (7)) with (d - 7) by lia.
  replace ((1 <=? d - 7) && (d - 7 <=? MAXORD)) with true
    by (symmetry; apply andb_true_iff; split; apply Z.leb_le; lia).
  replace ((1 <=? d + 7) && (d + 7 <=? MAXORD)) with true
    by (symmetry; apply andb_true_iff; split; apply Z.leb_le; lia).
  simpl. rewrite Hh. simpl.
  destruct (empty data); [reflexivity|].
  apply exact_day_lookup.
Qed.

(** With a bar on the target day, the resolver returns its close, as the
    specification says. *)
Lemma resolver_exact_day history symbol date d data b :
  convert_date date = Ok (PDatetime d) ->
  1 <= d - 7 -> d + 7 <= MAXORD ->
  history (format_symbol symbol) (PDatetime (d - 7)) (PDatetime (d + 7)) = Ok data ->
  List.find (fun b => bar_date b =? d) data = Some b ->
  get_stock_price history symbol date = Some (Close b)
  /\ resolve_spec data d = Some (Close b).
Proof.
  intros Hc Hlo Hhi Hh Hf. unfold get_stock_price, resolve_spec.
  rewrite (resolver_fetched _ _ _ _ _ Hc Hlo Hhi Hh), Hf.
  destruct data; [discriminate|]. split; reflexivity.
Qed.

(** C4, on the code. When the fetched window is not empty and holds no
    bar on the target day, the resolver returns no price: the lookup of
    the nearest day raises at line 89 and the handler of line 93 turns
    that into [None].  The specification's resolver returns the close of
    a bar of the window there. *)
Theorem C4_nearest_day_lookup_returns_nothing
    (history : price_source) (symbol : string) (date : pyval) (d : Z)
    (data : DataFrame) :
  convert_date date = Ok (PDatetime d) ->
  1 <= d - 7 -> d + 7 <= MAXORD ->
  history (format_symbol symbol) (PDatetime (d - 7)) (PDatetime (d + 7)) = Ok data ->
  data <> [] ->
  (forall b, In b data -> bar_date b <> d) ->
  get_stock_price history symbol date = None
  /\ exists b,
       In b data
       /\ resolve_spec data d = Some (Close b)
       /\ (forall b', In b' data ->
                      Z.abs (bar_date b - d) <= Z.abs (bar_date b' - d)).
Proof.
  intros Hc Hlo Hhi Hh Hne Hno.
  assert (Hfind : List.find (fun b => bar_date b =? d) data = None).
  { destruct (List.find _ data) as [b|] eqn:E; [|reflexivity].
    apply find_some in E as [Hin Hb]. apply Z.eqb_eq in Hb.
    destruct (Hno b Hin Hb). }
  split.
  - unfold get_stock_price.
    rewrite (resolver_fetched _ _ _ _ _ Hc Hlo Hhi Hh), Hfind.
    destruct data; [congruence|]. reflexivity.
  - unfold resolve_spec. rewrite Hfind.
    destruct data as [|b0 data]; [congruence|].
    destruct (idxmin_nonempty (Z.abs (bar_date b0 - d))
                (map (fun b => Z.abs (bar_date b - d)) data)) as [i Hi].
    change (idxmin (map (fun b => Z.abs (bar_date b - d)) (b0 :: data)) = Some i) in Hi.
    rewrite Hi. destruct (idxmin_spec _ _ Hi) as (m & Hm & Hmin & _).
    rewrite nth_error_map in Hm.
    destruct (nth_error (b0 :: data) i) as [b|] eqn:Eb; [|discriminate].
    injection Hm as Hm.
    exists b. split; [eapply nth_error_In; exact Eb|]. split; [reflexivity|].
    intros b' Hin'. apply In_nth_error in Hin' as [j Hj].
    rewrite Hm. apply (Hmin j). rewrite nth_error_map, Hj. reflexivity.
Qed.

Lemma C4_nearest_day_lookup_returns_nothing_witness :
  get_stock_price (Sample.always Sample.around_weekend) "RELIANCE"
    (PStr "24/12/2023") = None
  /\ exists b,
       In b Sample.around_weekend
       /\ resolve_spec Sample.around_weekend (Sample.day0 - 1) = Some (Close b)
       /\ (forall b', In b' Sample.around_weekend ->
                      Z.abs (bar_date b - (Sample.day0 - 1))
                      <= Z.abs (bar_date b' - (Sample.day0 - 1))).
Proof.
  apply (C4_nearest_day_lookup_returns_nothing
           (Sample.always Sample.around_weekend) "RELIANCE"
           (PStr "24/12/2023") (Sample.day0 - 1) Sample.around_weekend).
  - reflexivity.
  - vm_compute. discriminate.
  - vm_compute. discriminate.
  - reflexivity.
  - discriminate.
  - intros b [<-|[<-|[]]]; vm_compute; discriminate.
Defined.

(** On the sample window the nearest bar is Monday's, one day away, with
    close 101; the code returns nothing. *)
Example around_weekend_divergence :
  resolve_spec Sample.around_weekend (Sample.day0 - 1) = Some 101%float
  /\ get_stock_price (Sample.always Sample.around_weekend) "RELIANCE"
       (PStr "24/12/2023") = None
  /\ get_stock_price_body (Sample.always Sample.around_weekend) "RELIANCE"
       (PStr "24/12/2023")
     = Raise (Exn AttributeError "'numpy.ndarray' object has no attribute 'days'").
Proof. repeat split; reflexivity. Qed.

(** The specification's resolver takes the earlier of two bars equally
    near: Saturday and Monday around a missing Sunday give Saturday's
    close. *)
Example resolve_spec_tie_is_earliest :
  resolve_spec [ Sample.flat (Sample.day0 - 2) 100 98 99.5;
                 Sample.flat Sample.day0 102 99 101 ] (Sample.day0 - 1)
  = Some 99.5%float.
Proof. reflexivity. Qed.

(* ===================================================================== *)
(** ** The row loop *)
(* ===================================================================== *)

Section RowLoop.

Variables (history : price_source) (target_pct sl_pct : float).

Lemma loop_body_at (done rest : list row) (r : row) :
  loop_body history target_pct sl_pct (done ++ r :: rest) (length done)
  = done ++ process_one history target_pct sl_pct r :: rest.
Proof.
  unfold loop_body, process_one, at_set.
  rewrite list_lookup_middle by reflexivity.
  destruct (get_stock_price history (col_symbol r) (col_date r));
    rewrite <- (Nat.add_0_r (length done)), !alter_app_r; reflexivity.
Qed.

Lemma loop_from (todo : list row) :
  forall done : list row,
    fold_left (loop_body history target_pct sl_pct)
      (seq (length done) (length todo)) (done ++ todo)
    = done ++ map (process_one history target_pct sl_pct) todo.
Proof.
  induction todo as [|r todo IH]; intros done; simpl; [reflexivity|].
  rewrite loop_body_at.
  specialize (IH (done ++ [process_one history target_pct sl_pct r])).
  rewrite length_app, Nat.add_1_r, <- !app_assoc in IH. exact IH.
Qed.

(** The loop writes each row once, at its own index: it is a map. *)
Lemma process_rows_map (df : list row) :
  process_rows history target_pct sl_pct df
  = map (process_one history target_pct sl_pct) df.
Proof. exact (loop_from df []). Qed.

Lemma process_rows_length (df : list row) :
  length (process_rows history target_pct sl_pct df) = length df.
Proof. rewrite process_rows_map. apply length_map. Qed.

(** The processed row of the [i]-th trade of the sheet. *)
Lemma processed_row (sheet : list trade) (i : nat) (tr : trade) :
  sheet !! i = Some tr ->
  process_rows history target_pct sl_pct (init_columns target_pct sl_pct sheet) !! i
  = Some (process_one history target_pct sl_pct
            (Row (date tr) (symbol tr) (marketcapname tr) (sector tr)
                 0%float target_pct sl_pct "Processing...")).
Proof.
  intros H. rewrite process_rows_map. unfold init_columns.
  rewrite !list_lookup_fmap, H. reflexivity.
Qed.

Lemma loc_assign_map {A} (p : A -> bool) (f : A -> float) (v : float) (l : list A) :
  loc_assign (map p l) v (map f l) = map (fun x => if p x then v else f x) l.
Proof. induction l as [|x l IH]; simpl; [reflexivity|]. rewrite IH. reflexivity. Qed.

(** Lines 308-310 give each row the profit or loss of its outcome. *)
Lemma compute_pnl_map (results : list string) :
  compute_pnl target_pct sl_pct results = map (pnl_of target_pct sl_pct) results.
Proof.
  unfold compute_pnl, mask_eq. rewrite !loc_assign_map.
  apply map_ext. intros outcome. unfold pnl_of.
  destruct (String.eqb outcome "Stop Loss Hit") eqn:Es;
    destruct (String.eqb outcome "Target Hit") eqn:Et; try reflexivity.
  apply String.eqb_eq in Es, Et. congruence.
Qed.

End RowLoop.




(* ===================================================================== *)
(** ** Where [main] ends *)
(* ===================================================================== *)

Section MainEnds.

Variables (history : price_source)
          (pd_to_datetime : list pyval -> exc (list pyval))
          (target_pct sl_pct : float).

(** The loop leaves the date column as uploaded. *)
Lemma processed_dates (sheet : list trade) :
  map col_date
    (process_rows history target_pct sl_pct (init_columns target_pct sl_pct sheet))
  = map date sheet.
Proof.
  rewrite process_rows_map. unfold init_columns. rewrite !map_map.
  apply map_ext. intros t. unfold process_one. simpl.
  destruct (get_stock_price history (symbol t) (date t)); reflexivity.
Qed.

Lemma processed_length (sheet : list trade) :
  length (process_rows history target_pct sl_pct
            (init_columns target_pct sl_pct sheet)) = length sheet.
Proof. rewrite process_rows_length. unfold init_columns. apply length_map. Qed.

Lemma dt_to_period_length (column : list pyval) (months : list period) :
  dt_to_period column = Ok months -> length months = length column.
Proof.
  revert months. induction column as [|[s|d] column IH]; intros months; simpl.
  - intros [= <-]. reflexivity.
  - discriminate.
  - destruct (dt_to_period column) as [ms|]; [|discriminate]. simpl.
    destruct (_ord2ymd d) as [[year month] day]. intros [= <-]. simpl.
    rewrite (IH ms eq_refl). reflexivity.
Qed.

Lemma dt_to_period_timestamps (ds : list datetime) :
  exists months, dt_to_period (map PDatetime ds) = Ok months.
Proof.
  induction ds as [|d ds [ms IH]]; simpl; [eexists; reflexivity|].
  rewrite IH. simpl. destruct (_ord2ymd d) as [[year month] day].
  eexists. reflexivity.
Qed.

Lemma count_in_group_rows key groups : count_in_group key groups <> [].
Proof.
  destruct groups as [|[k n] rest]; simpl; [discriminate|].
  destruct (key_eqb key k); [discriminate|].
  destruct (key_ltb key k); discriminate.
Qed.

(** Rows give groups. *)
Lemma groupby_size_rows (keys : list (period * string)) :
  keys <> [] -> groupby_size keys <> [].
Proof.
  unfold groupby_size. intros Hne.
  assert (H : forall ks groups, groups <> [] ->
              fold_left (fun groups key => count_in_group key groups) ks groups <> []).
  { induction ks as [|k ks IH]; intros groups Hg; simpl; [exact Hg|].
    apply IH, count_in_group_rows. }
  destruct keys as [|k keys]; [congruence|]. simpl.
  apply H. discriminate.
Qed.

(** With rows on the sheet the three shares of lines 244-250 are
    computed, and [main] goes on to the date conversion. *)
Ltac pass_the_shares sheet Hne :=
  unfold main_body;
  unfold truediv at 1 2 3;
  rewrite (processed_length sheet);
  replace (Z.of_nat (length sheet) =? 0) with false
    by (symmetry; apply Z.eqb_neq; destruct sheet; [congruence|simpl length; lia]);
  cbv beta iota delta [rbind];
  rewrite (processed_dates sheet).

Lemma main_body_conversion_refused (sheet : list trade) (e : exn) :
  sheet <> [] ->
  pd_to_datetime (map date sheet) = Raise e ->
  main_body history pd_to_datetime target_pct sl_pct sheet = Raise e.
Proof. intros Hne Hd. pass_the_shares sheet Hne. rewrite Hd. reflexivity. Qed.

Lemma main_body_no_timestamps (sheet : list trade) (dates : list pyval) (e : exn) :
  sheet <> [] ->
  pd_to_datetime (map date sheet) = Ok dates ->
  dt_to_period dates = Raise e ->
  main_body history pd_to_datetime target_pct sl_pct sheet = Raise e.
Proof.
  intros Hne Hd Hm. pass_the_shares sheet Hne. rewrite Hd, Hm. reflexivity.
Qed.

(** With rows and a converted date column, the monthly chart of line
    303 raises. *)
Lemma main_body_chart_raises (sheet : list trade) (dates : list pyval)
    (months : list period) :
  sheet <> [] ->
  pd_to_datetime (map date sheet) = Ok dates ->
  dt_to_period dates = Ok months ->
  length dates = length sheet ->
  main_body history pd_to_datetime target_pct sl_pct sheet
  = Raise (Exn TypeError "Object of type Period is not JSON serializable").
Proof.
  intros Hne Hd Hm Hlen. pass_the_shares sheet Hne. rewrite Hd, Hm.
  pose proof (dt_to_period_length _ _ Hm) as Hmonths.
  destruct (groupby_size _) as [|g groups] eqn:Eg; [|reflexivity].
  exfalso. revert Eg. apply groupby_size_rows.
  destruct sheet as [|t sheet]; [congruence|].
  destruct months as [|m months]; [simpl in *; lia|].
  rewrite process_rows_map. discriminate.
Qed.

(** Whatever the sheet, [main] ends in its handler. *)
Lemma main_body_raises (sheet : list trade) :
  (forall column dates,
      pd_to_datetime column = Ok dates -> length dates = length column) ->
  exists e, main_body history pd_to_datetime target_pct sl_pct sheet = Raise e.
Proof.
  intros Hlen. destruct sheet as [|t sheet]; [eexists; reflexivity|].
  destruct (pd_to_datetime (map date (t :: sheet))) as [dates|e] eqn:Hd.
  - destruct (dt_to_period dates) as [months|e] eqn:Hm.
    + eexists. eapply main_body_chart_raises; try eassumption; [discriminate|].
      rewrite (Hlen _ _ Hd). apply length_map.
    + exists e. eapply main_body_no_timestamps; try eassumption. discriminate.
  - exists e. apply main_body_conversion_refused; [discriminate|exact Hd].
Qed.

End MainEnds.

(** C6, on the code.  Lines 308-310 as written give each row the target
    percentage for "Target Hit", minus the stop-loss percentage for
    "Stop Loss Hit" and 0 for any other result, and line 312 adds the
    column up; but no run of [main] gets there.  A sheet without rows
    fails at line 244, and with rows the monthly chart of line 303, whose
    figure holds [Period] values, raises: whatever the sheet, the page
    shows an error and no profit or loss. *)
Theorem C6_profit_and_loss_is_never_reached
    (history : price_source) (pd_to_datetime : list pyval -> exc (list pyval))
    (target_pct sl_pct : float) (sheet : list trade) :
  (forall column dates,
      pd_to_datetime column = Ok dates -> length dates = length column) ->
  (exists message,
     main history pd_to_datetime target_pct sl_pct sheet = inr message)
  /\ let results :=
       map col_result
         (process_rows history target_pct sl_pct
            (init_columns target_pct sl_pct sheet)) in
     compute_pnl target_pct sl_pct results
     = map (pnl_of target_pct sl_pct) results.
Proof.
  intros Hlen. split; [|apply compute_pnl_map].
  destruct (main_body_raises history pd_to_datetime target_pct sl_pct sheet Hlen)
    as [e He].
  unfold main. rewrite He. eexists. reflexivity.
Qed.

Lemma to_datetime_parsed_length (column dates : list pyval) :
  Cases.to_datetime_parsed column = Ok dates -> length dates = length column.
Proof.
  revert dates. induction column as [|[s|d] column IH]; intros dates;
    cbn [Cases.to_datetime_parsed].
  - intros [= <-]. reflexivity.
  - destruct (first_parse date_formats s); [|discriminate].
    destruct (Cases.to_datetime_parsed column) as [ds|]; [|discriminate].
    simpl. intros [= <-]. simpl. rewrite (IH ds eq_refl). reflexivity.
  - destruct (Cases.to_datetime_parsed column) as [ds|]; [|discriminate].
    simpl. intros [= <-]. simpl. rewrite (IH ds eq_refl). reflexivity.
Qed.

Lemma C6_profit_and_loss_is_never_reached_witness :
  (exists message,
     main Sample.market Cases.to_datetime_parsed 3 2 Cases.two_trades
     = inr message)
  /\ let results :=
       map col_result
         (process_rows Sample.market 3 2 (init_columns 3 2 Cases.two_trades)) in
     compute_pnl 3 2 results = map (pnl_of 3 2) results.
Proof.
  apply (C6_profit_and_loss_is_never_reached Sample.market
           Cases.to_datetime_parsed 3 2 Cases.two_trades).
  exact to_datetime_parsed_length.
Defined.

(** The sheet of one target hit and one stop-loss hit: the rows are
    processed, the profit and loss of lines 308-310 would be 3 and -2,
    and the page ends with the error of the chart. *)
Example two_trades_end_at_the_chart :
  map col_result
    (process_rows Sample.market 3 2 (init_columns 3 2 Cases.two_trades))
  = ["Target Hit"; "Stop Loss Hit"]
  /\ compute_pnl 3 2 ["Target Hit"; "Stop Loss Hit"] = [3; -2]%float
  /\ main Sample.market Cases.to_datetime_parsed 3 2 Cases.two_trades
     = inr "Error processing file: Object of type Period is not JSON serializable".
Proof. repeat split; reflexivity. Qed.

(** C7, on the code.  Line 313 as written gives the quotient of the
    target hits by the target and stop-loss hits, as a percentage, and
    the integer 0 when there is no such hit; but on every sheet with rows
    whose date column is converted, [main] ends at the monthly chart of
    line 303, before that line, and reports no win rate. *)
Theorem C7_win_rate_is_never_reached
    (history : price_source) (pd_to_datetime : list pyval -> exc (list pyval))
    (target_pct sl_pct : float) (sheet : list trade) (days : list datetime) :
  sheet <> [] ->
  pd_to_datetime (map date sheet) = Ok (map PDatetime days) ->
  length days = length sheet ->
  main history pd_to_datetime target_pct sl_pct sheet
  = inr "Error processing file: Object of type Period is not JSON serializable"
  /\ (forall hits stops : Z,
        compute_win_rate hits stops
        = Ok (if hits + stops >? 0
              then PFloat (of_Z hits / of_Z (hits + stops) * 100)%float
              else PInt 0)).
Proof.
  intros Hne Hd Hlen. split.
  - destruct (dt_to_period_timestamps days) as [months Hm].
    unfold main.
    rewrite (main_body_chart_raises history pd_to_datetime target_pct sl_pct
               sheet (map PDatetime days) months Hne Hd Hm)
      by (rewrite length_map; exact Hlen).
    reflexivity.
  - intros hits stops. unfold compute_win_rate, truediv.
    destruct (hits + stops >? 0) eqn:Epos; [|reflexivity].
    replace (hits + stops =? 0) with false
      by (symmetry; apply Z.eqb_neq; lia).
    reflexivity.
Qed.

Lemma C7_win_rate_is_never_reached_witness :
  main Sample.market Cases.to_datetime_parsed 3 2 Cases.two_trades
  = inr "Error processing file: Object of type Period is not JSON serializable"
  /\ (forall hits stops : Z,
        compute_win_rate hits stops
        = Ok (if hits + stops >? 0
              then PFloat (of_Z hits / of_Z (hits + stops) * 100)%float
              else PInt 0)).
Proof.
  apply (C7_win_rate_is_never_reached Sample.market Cases.to_datetime_parsed
           3 2 Cases.two_trades [Sample.day0; Sample.day0]).
  - discriminate.
  - reflexivity.
  - reflexivity.
Defined.

(** C8, on the code. On a sheet without rows [main] does not reach the
    win rate: the share of target hits, [target_hit / total_trades], is a
    division of 0 by 0, which raises, and the handler of line 342 shows
    the error in place of any summary. *)
Theorem C8_empty_sheet_divides_by_zero
    (history : price_source) (pd_to_datetime : list pyval -> exc (list pyval))
    (target_pct sl_pct : float) :
  main_body history pd_to_datetime target_pct sl_pct []
  = Raise (Exn ZeroDivisionError "division by zero")
  /\ main history pd_to_datetime target_pct sl_pct []
     = inr "Error processing file: division by zero".
Proof. split; reflexivity. Qed.

(* ===================================================================== *)
(** ** Failures, row by row *)
(* ===================================================================== *)

Lemma scan_values (entry : Z) (tp sp : float) (data : DataFrame) :
  In (scan entry tp sp data) ["Target Hit"; "Stop Loss Hit"; "Neither Hit"].
Proof.
  induction data as [|b data IH]; simpl; [tauto|].
  destruct (entry <? bar_date b); [|exact IH].
  destruct (tp <=? High b)%float; [simpl; tauto|].
  destruct (Low b <=? sp)%float; [tauto|exact IH].
Qed.

(** The classifier answers with one of its four outcomes or with an
    error text; never with the placeholder of line 182. *)
Lemma check_not_placeholder history sym entry_date ep tp sp :
  check_target_or_sl_first history sym entry_date ep tp sp <> "Processing...".
Proof.
  unfold check_target_or_sl_first.
  destruct (check_target_or_sl_first_body history sym entry_date ep tp sp)
    as [outcome|e] eqn:E; [|simpl; discriminate].
  unfold check_target_or_sl_first_body in E.
  destruct (convert_date entry_date) as [v|]; [|discriminate]. simpl in E.
  destruct (add_timedelta v 30) as [w|]; [|discriminate]. simpl in E.
  destruct (history (format_symbol sym) v w) as [data|]; [|discriminate].
  simpl in E. destruct (empty data); [injection E as <-; discriminate|].
  destruct (date_of v) as [entry|]; [|discriminate]. simpl in E.
  injection E as <-.
  pose proof (scan_values entry tp sp data) as Hin. simpl in Hin.
  intros Heq. rewrite Heq in Hin.
  destruct Hin as [H|[H|[H|[]]]]; discriminate.
Qed.

(** C9. Failures stay in their row.  When the price source raises on the
    resolver's request the resolver returns no price, and so it does on
    any other exception of its body; when the source raises on the
    classifier's request the classifier returns the text "Error: "
    followed by the message; and whatever the source does the row loop
    leaves one row per trade of the sheet, in order, each with a result
    written. *)
Theorem C9_failures_degrade_per_row
    (history : price_source) (sym : string) (when : pyval) (d : Z)
    (e1 e2 : exn) (target_pct sl_pct : float) (sheet : list trade) :
  convert_date when = Ok (PDatetime d) ->
  1 <= d - 7 -> d + 30 <= MAXORD ->
  history (format_symbol sym) (PDatetime (d - 7)) (PDatetime (d + 7)) = Raise e1 ->
  history (format_symbol sym) (PDatetime d) (PDatetime (d + 30)) = Raise e2 ->
  let df := process_rows history target_pct sl_pct
              (init_columns target_pct sl_pct sheet) in
  get_stock_price_body history sym when = Raise e1
  /\ get_stock_price history sym when = None
  /\ (forall sym' when' e,
        get_stock_price_body history sym' when' = Raise e ->
        get_stock_price history sym' when' = None)
  /\ (forall ep tp sp,
        check_target_or_sl_first history sym when ep tp sp
        = ("Error: " ++ str e2)%string)
  /\ length df = length sheet
  /\ (forall (i : nat) (tr : trade),
        sheet !! i = Some tr ->
        exists r, df !! i = Some r
                  /\ col_symbol r = symbol tr /\ col_date r = date tr
                  /\ col_result r <> "Processing...").
Proof.
  intros Hc Hlo Hhi H1 H2 df. subst df.
  assert (Hbody : get_stock_price_body history sym when = Raise e1).
  { unfold get_stock_price_body. rewrite Hc. simpl. unfold add_days, MINORD.
    replace (d + - (7)) with (d - 7) by lia.
    replace ((1 <=? d - 7) && (d - 7 <=? MAXORD)) with true
      by (symmetry; apply andb_true_iff; split; apply Z.leb_le; lia).
    replace ((1 <=? d + 7) && (d + 7 <=? MAXORD)) with true
      by (symmetry; apply andb_true_iff; split; apply Z.leb_le; lia).
    simpl. rewrite H1. reflexivity. }
  split; [exact Hbody|].
  split; [unfold get_stock_price; rewrite Hbody; reflexivity|].
  split; [intros sym' when' e He; unfold get_stock_price; rewrite He; reflexivity|].
  split.
  { intros ep tp sp.
    unfold check_target_or_sl_first, check_target_or_sl_first_body.
    rewrite Hc. simpl. unfold add_days, MINORD.
    replace ((1 <=? d + 30) && (d + 30 <=? MAXORD)) with true
      by (symmetry; apply andb_true_iff; split; apply Z.leb_le; lia).
    simpl. rewrite H2. reflexivity. }
  split.
  { rewrite process_rows_length. unfold init_columns. apply length_map. }
  intros i tr Hi. rewrite (processed_row history target_pct sl_pct sheet i tr Hi).
  eexists. split; [reflexivity|]. unfold process_one. simpl.
  destruct (get_stock_price history (symbol tr) (date tr)); simpl.
  - repeat split. apply check_not_placeholder.
  - repeat split. discriminate.
Qed.

Lemma C9_failures_degrade_per_row_witness :
  let df := process_rows Sample.market 3 2 (init_columns 3 2 Sample.sheet_mixed) in
  get_stock_price_body Sample.market "DOWN" (PStr "25/12/2023")
  = Raise (Exn SourceError "connection reset")
  /\ get_stock_price Sample.market "DOWN" (PStr "25/12/2023") = None
  /\ (forall sym' when' e,
        get_stock_price_body Sample.market sym' when' = Raise e ->
        get_stock_price Sample.market sym' when' = None)
  /\ (forall ep tp sp,
        check_target_or_sl_first Sample.market "DOWN" (PStr "25/12/2023") ep tp sp
        = "Error: connection reset")
  /\ length df = length Sample.sheet_mixed
  /\ (forall (i : nat) (tr : trade),
        Sample.sheet_mixed !! i = Some tr ->
        exists r, df !! i = Some r
                  /\ col_symbol r = symbol tr /\ col_date r = date tr
                  /\ col_result r <> "Processing...").
Proof.
  apply (C9_failures_degrade_per_row Sample.market "DOWN" (PStr "25/12/2023")
           Sample.day0 (Exn SourceError "connection reset")
           (Exn SourceError "connection reset") 3 2 Sample.sheet_mixed).
  - reflexivity.
  - vm_compute. discriminate.
  - vm_compute. discriminate.
  - reflexivity.
  - reflexivity.
Defined.

(** A source that answers the resolver and fails the classifier: the row
    carries the error text, and its neighbours their own results. *)
Example flaky_row_keeps_its_error :
  map col_result
    (process_rows Sample.market 3 2
       (init_columns 3 2
          [Sample.on_day0 "WIN"; Sample.on_day0 "FLAKY"; Sample.on_day0 "LOSE"]))
  = ["Target Hit"; "Error: connection reset"; "Stop Loss Hit"].
Proof. reflexivity. Qed.

(* ===================================================================== *)
(** ** Recorded close and thresholds *)
(* ===================================================================== *)



(** numpy's rounding to two decimals on a few prices: a tie on the
    scaled value goes to the even neighbour. *)
Example round_to_two_decimals :
  round Sample.close_100_004 2 = 100%float
  /\ round 0.125 2 = (12 / 100)%float
  /\ round 0.375 2 = (38 / 100)%float
  /\ round (-2.5) 0 = (-2)%float
  /\ round 1234.5 2 = 1234.5%float.
Proof. repeat split; reflexivity. Qed.

(* ===================================================================== *)
(** ** The exchange suffix *)
(* ===================================================================== *)

Section Suffix.

Lemma length_app_string (s t : string) :
  String.length (s ++ t)%string = (String.length s + String.length t)%nat.
Proof. induction s as [|c s IH]; simpl; [reflexivity|]. rewrite IH. reflexivity. Qed.

Lemma substring_skip (s t : string) (k : nat) :
  substring (String.length s) k (s ++ t)%string = substring 0 k t.
Proof. induction s as [|c s IH]; simpl; [reflexivity|exact IH]. Qed.

Lemma substring_all (t : string) : substring 0 (String.length t) t = t.
Proof. induction t as [|c t IH]; simpl; [reflexivity|]. rewrite IH. reflexivity. Qed.

Lemma endswith_app (s suffix : string) : endswith (s ++ suffix)%string suffix = true.
Proof.
  unfold endswith. rewrite length_app_string.
  replace (String.length s + String.length suffix - String.length suffix)%nat
    with (String.length s) by lia.
  rewrite substring_skip, substring_all, String.eqb_refl.
  apply andb_true_iff. split; [apply Nat.leb_le; lia|reflexivity].
Qed.

Lemma format_symbol_endswith (s : string) : endswith (format_symbol s) ".NS" = true.
Proof.
  unfold format_symbol. destruct (endswith s ".NS") eqn:E; simpl; [exact E|].
  apply endswith_app.
Qed.

Lemma format_symbol_idempotent (s : string) :
  format_symbol (format_symbol s) = format_symbol s.
Proof.
  unfold format_symbol at 1. rewrite format_symbol_endswith. reflexivity.
Qed.

End Suffix.

(** X1. The exchange suffix is added once: a formatted symbol ends in
    ".NS", formatting it again changes nothing, and both the resolver and
    the classifier answer for a symbol as they do for the symbol already
    carrying the suffix. *)
Theorem X1_symbol_with_or_without_suffix
    (history : price_source) (s : string) (when : pyval)
    (entry_price target_price sl_price : float) :
  endswith (format_symbol s) ".NS" = true
  /\ format_symbol (format_symbol s) = format_symbol s
  /\ get_stock_price history (format_symbol s) when
     = get_stock_price history s when
  /\ check_target_or_sl_first history (format_symbol s) when
       entry_price target_price sl_price
     = check_target_or_sl_first history s when
         entry_price target_price sl_price.
Proof.
  split; [apply format_symbol_endswith|].
  split; [apply format_symbol_idempotent|].
  split.
  - unfold get_stock_price, get_stock_price_body.
    rewrite format_symbol_idempotent. reflexivity.
  - unfold check_target_or_sl_first, check_target_or_sl_first_body.
    rewrite format_symbol_idempotent. reflexivity.
Qed.

(* ===================================================================== *)
(** ** Which bar decides *)
(* ===================================================================== *)

Section Decides.

Variables (entry : Z) (target_price sl_price : float).

Lemma scan_neither_iff (data : DataFrame) :
  scan entry target_price sl_price data = "Neither Hit" <-> Forall (passed_over entry target_price sl_price) data.
Proof.
  induction data as [|b data IH]; simpl.
  - split; [constructor|reflexivity].
  - destruct (Z.ltb_spec entry (bar_date b)) as [Hlt|Hge].
    + destruct (target_price <=? High b)%float eqn:Hh.
      * split; [discriminate|]. intros H. inversion H as [|? ? Hb _]; subst.
        destruct (Hb Hlt) as [Hh' _]. congruence.
      * destruct (Low b <=? sl_price)%float eqn:Hl.
        -- split; [discriminate|]. intros H. inversion H as [|? ? Hb _]; subst.
           destruct (Hb Hlt) as [_ Hl']. congruence.
        -- rewrite IH. split.
           ++ intros H. constructor; [intros _; split; assumption|exact H].
           ++ intros H. inversion H; assumption.
    + rewrite IH. split.
      * intros H. constructor; [intros Hlt; lia|exact H].
      * intros H. inversion H; assumption.
Qed.

(** The scan stops at the first bar after the entry day that reaches a
    threshold, and answers by that bar alone. *)
Lemma scan_decided_iff (data : DataFrame) (outcome : string) :
  outcome <> "Neither Hit" ->
  scan entry target_price sl_price data = outcome
  <-> exists pre b post,
        data = pre ++ b :: post
        /\ Forall (passed_over entry target_price sl_price) pre
        /\ entry < bar_date b
        /\ ((target_price <=? High b)%float = true /\ outcome = "Target Hit"
            \/ (target_price <=? High b)%float = false
               /\ (Low b <=? sl_price)%float = true
               /\ outcome = "Stop Loss Hit").
Proof.
  intros Hout. split.
  - induction data as [|b data IH]; simpl; [congruence|].
    destruct (Z.ltb_spec entry (bar_date b)) as [Hlt|Hge].
    + destruct (target_price <=? High b)%float eqn:Hh.
      * intros <-. exists [], b, data. repeat split; [constructor|exact Hlt|].
        left. split; [exact Hh|reflexivity].
      * destruct (Low b <=? sl_price)%float eqn:Hl.
        -- intros <-. exists [], b, data. repeat split; [constructor|exact Hlt|].
           right. repeat split; assumption.
        -- intros H. destruct (IH H) as (pre & b' & post & -> & Hpre & Hb' & Hcase).
           exists (b :: pre), b', post. repeat split; try assumption.
           constructor; [intros _; split; assumption|exact Hpre].
    + intros H. destruct (IH H) as (pre & b' & post & -> & Hpre & Hb' & Hcase).
      exists (b :: pre), b', post. repeat split; try assumption.
      constructor; [intros Hlt; lia|exact Hpre].
  - intros (pre & b & post & -> & Hpre & Hb & Hcase).
    rewrite scan_skips_prefix by exact Hpre. simpl.
    apply Z.ltb_lt in Hb. rewrite Hb.
    destruct Hcase as [[Hh ->]|(Hh & Hl & ->)]; rewrite Hh; [reflexivity|].
    rewrite Hl. reflexivity.
Qed.

End Decides.

(** X2. On a fetched frame with rows, the classifier answers "Neither
    Hit" exactly when no bar dated after the entry day reaches the target
    with its high or the stop-loss with its low. *)
Theorem X2_neither_hit_iff
    (history : price_source) (sym : string) (entry_date : pyval) (d : Z)
    (entry_price target_price sl_price : float) (data : DataFrame) :
  convert_date entry_date = Ok (PDatetime d) ->
  1 <= d + 30 <= MAXORD ->
  history (format_symbol sym) (PDatetime d) (PDatetime (d + 30)) = Ok data ->
  data <> [] ->
  check_target_or_sl_first history sym entry_date
    entry_price target_price sl_price = "Neither Hit"
  <-> Forall (fun b => d < bar_date b -> undecided target_price sl_price b) data.
Proof.
  intros Hc Hr Hh Hne.
  rewrite (check_fetched _ _ _ _ _ _ _ _ Hc Hr Hh).
  destruct data; [congruence|]. simpl empty. cbv iota.
  apply scan_neither_iff.
Qed.

Lemma X2_neither_hit_iff_witness :
  check_target_or_sl_first (Sample.always Sample.entry_day_only) "RELIANCE"
    (PStr "25/12/2023") 100 103 98 = "Neither Hit"
  <-> Forall (fun b => Sample.day0 < bar_date b -> undecided 103 98 b)
        Sample.entry_day_only.
Proof.
  apply (X2_neither_hit_iff (Sample.always Sample.entry_day_only) "RELIANCE"
           (PStr "25/12/2023") Sample.day0 100 103 98 Sample.entry_day_only).
  - reflexivity.
  - vm_compute. split; discriminate.
  - reflexivity.
  - discriminate.
Defined.

(** X3. The classifier answers "Stop Loss Hit" exactly when the first bar
    after the entry day that reaches a threshold has its low at or under
    the stop-loss price and its high under the target price: a later bar
    reaching the target does not change the answer. *)
Theorem X3_stop_loss_hit_iff
    (history : price_source) (sym : string) (entry_date : pyval) (d : Z)
    (entry_price target_price sl_price : float) (data : DataFrame) :
  convert_date entry_date = Ok (PDatetime d) ->
  1 <= d + 30 <= MAXORD ->
  history (format_symbol sym) (PDatetime d) (PDatetime (d + 30)) = Ok data ->
  check_target_or_sl_first history sym entry_date
    entry_price target_price sl_price = "Stop Loss Hit"
  <-> exists pre b post,
        data = pre ++ b :: post
        /\ Forall (fun x => d < bar_date x -> undecided target_price sl_price x) pre
        /\ d < bar_date b
        /\ (target_price <=? High b)%float = false
        /\ (Low b <=? sl_price)%float = true.
Proof.
  intros Hc Hr Hh.
  rewrite (check_fetched _ _ _ _ _ _ _ _ Hc Hr Hh).
  destruct data as [|b0 data].
  - simpl. split; [discriminate|].
    intros (pre & b & post & H & _). destruct pre; discriminate.
  - simpl empty. cbv iota.
    rewrite (scan_decided_iff d target_price sl_price (b0 :: data) "Stop Loss Hit")
      by discriminate.
    split; intros (pre & b & post & Hd & Hpre & Hb & Hcase);
      exists pre, b, post; repeat split; try assumption.
    + destruct Hcase as [[_ ?]|(? & _ & _)]; [discriminate|assumption].
    + destruct Hcase as [[_ ?]|(_ & ? & _)]; [discriminate|assumption].
    + right. destruct Hcase as [? ?]. repeat split; assumption.
Qed.

Lemma X3_stop_loss_hit_iff_witness :
  check_target_or_sl_first Sample.market "LOSE" (PStr "25/12/2023") 100 103 98
  = "Stop Loss Hit"
  <-> exists pre b post,
        [ Sample.flat Sample.day0 101 99 100;
          Sample.flat (Sample.day0 + 1) 101 97 98 ] = pre ++ b :: post
        /\ Forall (fun x => Sample.day0 < bar_date x -> undecided 103 98 x) pre
        /\ Sample.day0 < bar_date b
        /\ (103 <=? High b)%float = false
        /\ (Low b <=? 98)%float = true.
Proof.
  apply (X3_stop_loss_hit_iff Sample.market "LOSE" (PStr "25/12/2023")
           Sample.day0 100 103 98).
  - reflexivity.
  - vm_compute. split; discriminate.
  - reflexivity.
Defined.

(** X4. The classifier answers "Target Hit" only when some bar after the
    entry day has its high at or over the target price and no earlier bar
    after the entry day reached either threshold; and it does so then. *)
Theorem X4_target_hit_iff
    (history : price_source) (sym : string) (entry_date : pyval) (d : Z)
    (entry_price target_price sl_price : float) (data : DataFrame) :
  convert_date entry_date = Ok (PDatetime d) ->
  1 <= d + 30 <= MAXORD ->
  history (format_symbol sym) (PDatetime d) (PDatetime (d + 30)) = Ok data ->
  check_target_or_sl_first history sym entry_date
    entry_price target_price sl_price = "Target Hit"
  <-> exists pre b post,
        data = pre ++ b :: post
        /\ Forall (fun x => d < bar_date x -> undecided target_price sl_price x) pre
        /\ d < bar_date b
        /\ (target_price <=? High b)%float = true.
Proof.
  intros Hc Hr Hh.
  rewrite (check_fetched _ _ _ _ _ _ _ _ Hc Hr Hh).
  destruct data as [|b0 data].
  - simpl. split; [discriminate|].
    intros (pre & b & post & H & _). destruct pre; discriminate.
  - simpl empty. cbv iota.
    rewrite (scan_decided_iff d target_price sl_price (b0 :: data) "Target Hit")
      by discriminate.
    split; intros (pre & b & post & Hd & Hpre & Hb & Hcase);
      exists pre, b, post; repeat split; try assumption.
    + destruct Hcase as [[? _]|(_ & _ & ?)]; [assumption|discriminate].
    + left. split; [assumption|reflexivity].
Qed.

Lemma X4_target_hit_iff_witness :
  check_target_or_sl_first (Sample.always Sample.both_touched) "RELIANCE"
    (PStr "25/12/2023") 100 103 98 = "Target Hit"
  <-> exists pre b post,
        Sample.both_touched = pre ++ b :: post
        /\ Forall (fun x => Sample.day0 < bar_date x -> undecided 103 98 x) pre
        /\ Sample.day0 < bar_date b
        /\ (103 <=? High b)%float = true.
Proof.
  apply (X4_target_hit_iff (Sample.always Sample.both_touched) "RELIANCE"
           (PStr "25/12/2023") Sample.day0 100 103 98 Sample.both_touched).
  - reflexivity.
  - vm_compute. split; discriminate.
  - reflexivity.
Defined.

(* ===================================================================== *)
(** ** A price that is not a number *)
(* ===================================================================== *)

Section NotANumber.

Local Open Scope float_scope.




End NotANumber.



(* ===================================================================== *)
(** ** More on dates *)
(* ===================================================================== *)

Section DateShapes.

Lemma match_branch_length (b : list atom) :
  forall s m r, match_branch b s = Some (m, r) -> String.length m = length b.
Proof.
  induction b as [|a b IH]; intros s m r; simpl.
  - intros [= <- <-]. reflexivity.
  - destruct s as [|c s]; [discriminate|].
    destruct (atom_matches a c); [|discriminate].
    destruct (match_branch b s) as [[m' r']|] eqn:Hb; [|discriminate].
    intros [= <- <-]. simpl. rewrite (IH _ _ _ Hb). reflexivity.
Qed.

Lemma re_match_literal (c : ascii) (fmt : list directive) (s : string) x :
  re_match (Lit c :: fmt) s = Some x -> exists s', s = String c s'.
Proof.
  simpl. destruct s as [|a s]; simpl; [discriminate|].
  destruct (Ascii.eqb c a) eqn:E; [|discriminate].
  apply Ascii.eqb_eq in E. subst a. intros _. eexists. reflexivity.
Qed.

(** A string the dashed day-first format reads has a dash as its second
    or third character. *)
Lemma dash_day_first_shape (s : string) (d : datetime) :
  strptime s "%d-%m-%Y" = Ok d ->
  exists a rest,
    s = String a (String "-" rest)
    \/ exists b, s = String a (String b (String "-" rest)).
Proof.
  unfold strptime. simpl parse_format. cbv beta iota delta [rbind].
  destruct (re_match [pct_d; Lit "-"; pct_m; Lit "-"; pct_Y] s)
    as [[found rest]|] eqn:Hm; [|discriminate].
  intros _. change (re_match [pct_d; Lit "-"; pct_m; Lit "-"; pct_Y] s)
    with (first_some
            (fun b =>
               match match_branch b s with
               | Some (m, r) =>
                   match re_match [Lit "-"; pct_m; Lit "-"; pct_Y] r with
                   | Some (found, rest) => Some ((pct_d, m) :: found, rest)
                   | None => None
                   end
               | None => None
               end) (alternatives pct_d)) in Hm.
  apply first_some_inv in Hm as (b & Hin & Hm).
  destruct (match_branch b s) as [[m r]|] eqn:Hb; [|discriminate].
  destruct (re_match [Lit "-"; pct_m; Lit "-"; pct_Y] r) as [x|] eqn:Hr;
    [|discriminate].
  apply re_match_literal in Hr as [r' ->].
  pose proof (match_branch_length _ _ _ _ Hb) as Hlen.
  destruct (match_branch_spec _ _ _ _ Hb) as (Hs & _ & _).
  simpl in Hin.
  destruct Hin as [<-|[<-|[<-|[<-|[<-|[]]]]]]; simpl in Hlen;
    destruct m as [|a [|a' [|a'' m]]]; try discriminate;
    subst s; simpl; eauto.
Qed.

(** A string the ISO format reads begins with four digits. *)
Lemma iso_shape (s : string) (d : datetime) :
  strptime s "%Y-%m-%d" = Ok d ->
  exists a b c e rest,
    s = String a (String b (String c (String e rest)))
    /\ atom_matches digit b = true /\ atom_matches digit c = true.
Proof.
  unfold strptime. simpl parse_format. cbv beta iota delta [rbind].
  destruct (re_match [pct_Y; Lit "-"; pct_m; Lit "-"; pct_d] s)
    as [[found rest]|] eqn:Hm; [|discriminate].
  intros _. simpl in Hm.
  destruct s as [|a [|b [|c [|e s]]]]; simpl in Hm;
    repeat match type of Hm with
           | context [if ?t then _ else _] => destruct t eqn:?; simpl in Hm
           end; try discriminate.
  exists a, b, c, e, s. repeat split; assumption.
Qed.

Lemma iso_is_not_day_first (s : string) (d : datetime) :
  strptime s "%Y-%m-%d" = Ok d -> exists e, strptime s "%d-%m-%Y" = Raise e.
Proof.
  intros Hiso. destruct (strptime s "%d-%m-%Y") as [d'|e] eqn:Hdmy;
    [|eexists; reflexivity].
  exfalso.
  destruct (iso_shape s d Hiso) as (a & b & c & e & rest & -> & Hb & Hc).
  destruct (dash_day_first_shape _ d' Hdmy) as (a' & rest' & [H|[b' H]]);
    inversion H; subst.
  - vm_compute in Hb. discriminate.
  - vm_compute in Hc. discriminate.
Qed.

Lemma iso_has_no_slash (s : string) (d : datetime) :
  strptime s "%Y-%m-%d" = Ok d -> contains "/" s = false.
Proof.
  intros H. eapply strptime_chars in H; [|reflexivity].
  destruct H as [_ Hadm].
  destruct (contains "/" s) eqn:E; [|reflexivity].
  specialize (Hadm _ E). vm_compute in Hadm. discriminate.
Qed.

End DateShapes.

(** X6. A string the ISO format year-month-day reads is always read that
    way by the conversion block: it holds no slash, the dashed day-first
    format tried before cannot read it, nor can the month-first one. *)
Theorem X6_iso_dates_read_as_iso (s : string) (d : datetime) :
  strptime s "%Y-%m-%d" = Ok d ->
  convert_date (PStr s) = Ok (PDatetime d).
Proof.
  intros Hiso. unfold convert_date.
  rewrite (iso_has_no_slash s d Hiso).
  rewrite (dash_formats_need_dash s d) by (right; exact Hiso).
  destruct (iso_is_not_day_first s d Hiso) as [e He]. rewrite He. simpl.
  destruct (strptime s "%m/%d/%Y") as [d3|e3] eqn:E3.
  - pose proof (slash_formats_need_slash s d3 (or_intror E3)) as Hs.
    rewrite (iso_has_no_slash s d Hiso) in Hs. discriminate.
  - simpl. rewrite Hiso. reflexivity.
Qed.

Lemma X6_iso_dates_read_as_iso_witness :
  convert_date (PStr "2023-12-25") = Ok (PDatetime Sample.day0).
Proof.
  apply (X6_iso_dates_read_as_iso "2023-12-25" Sample.day0). reflexivity.
Defined.

(** X7. A date string with neither a slash nor a dash is not parsed at
    all: it stays a string, the resolver returns no price and the
    classifier the text of the type error its date arithmetic raises,
    without the price source being consulted. *)
Theorem X7_date_without_separator
    (history : price_source) (sym s : string)
    (entry_price target_price sl_price : float) :
  contains "/" s = false ->
  contains "-" s = false ->
  convert_date (PStr s) = Ok (PStr s)
  /\ get_stock_price history sym (PStr s) = None
  /\ check_target_or_sl_first history sym (PStr s)
       entry_price target_price sl_price
     = ("Error: can only concatenate str (not " ++ dquote
        ++ "datetime.timedelta" ++ dquote ++ ") to str")%string.
Proof.
  intros Hs Hd.
  assert (Hc : convert_date (PStr s) = Ok (PStr s)).
  { unfold convert_date. rewrite Hs, Hd. reflexivity. }
  split; [exact Hc|]. split.
  - unfold get_stock_price, get_stock_price_body. rewrite Hc. reflexivity.
  - unfold check_target_or_sl_first, check_target_or_sl_first_body.
    rewrite Hc. reflexivity.
Qed.

Lemma X7_date_without_separator_witness :
  convert_date (PStr "20231225") = Ok (PStr "20231225")
  /\ get_stock_price Sample.market "WIN" (PStr "20231225") = None
  /\ check_target_or_sl_first Sample.market "WIN" (PStr "20231225") 100 103 98
     = ("Error: can only concatenate str (not " ++ dquote
        ++ "datetime.timedelta" ++ dquote ++ ") to str")%string.
Proof.
  apply (X7_date_without_separator Sample.market "WIN" "20231225" 100 103 98);
    reflexivity.
Defined.

(** X8. At the ends of the calendar the window cannot be built: for a
    date in the first seven days of year 1 the resolver returns no price,
    and for a date in the last thirty days of year 9999 the classifier
    returns the overflow error as its outcome, whatever the source. *)
Theorem X8_window_outside_the_calendar
    (history : price_source) (sym : string) (early late : pyval) (d1 d2 : Z)
    (entry_price target_price sl_price : float) :
  convert_date early = Ok (PDatetime d1) -> d1 - 7 < MINORD ->
  convert_date late = Ok (PDatetime d2) -> MAXORD < d2 + 30 ->
  get_stock_price history sym early = None
  /\ check_target_or_sl_first history sym late entry_price target_price sl_price
     = "Error: date value out of range".
Proof.
  intros Hc1 H1 Hc2 H2. split.
  - unfold get_stock_price, get_stock_price_body. rewrite Hc1. simpl.
    unfold add_days.
    replace (MINORD <=? d1 + - (7)) with false
      by (symmetry; apply Z.leb_gt; lia).
    reflexivity.
  - unfold check_target_or_sl_first, check_target_or_sl_first_body.
    rewrite Hc2. simpl. unfold add_days.
    replace (d2 + 30 <=? MAXORD) with false
      by (symmetry; apply Z.leb_gt; lia).
    rewrite andb_false_r. reflexivity.
Qed.

Lemma X8_window_outside_the_calendar_witness :
  get_stock_price Sample.market "WIN" (PStr "05/01/0001") = None
  /\ check_target_or_sl_first Sample.market "WIN" (PStr "15/12/9999") 100 103 98
     = "Error: date value out of range".
Proof.
  apply (X8_window_outside_the_calendar Sample.market "WIN"
           (PStr "05/01/0001") (PStr "15/12/9999") 5 3652043 100 103 98).
  - reflexivity.
  - vm_compute. reflexivity.
  - reflexivity.
  - vm_compute. reflexivity.
Defined.

(* ===================================================================== *)
(** ** What a resolved price is *)
(* ===================================================================== *)

(** X9. A price the resolver returns is always the close of a bar dated on
    the requested day itself, the first such bar of the window fetched
    for the seven days either side of it. *)
Theorem X9_resolved_price_is_exact_day_close
    (history : price_source) (sym : string) (when : pyval) (price : float) :
  get_stock_price history sym when = Some price ->
  exists d data b,
    convert_date when = Ok (PDatetime d)
    /\ history (format_symbol sym) (PDatetime (d - 7)) (PDatetime (d + 7)) = Ok data
    /\ List.find (fun b => bar_date b =? d) data = Some b
    /\ bar_date b = d
    /\ price = Close b.
Proof.
  unfold get_stock_price, get_stock_price_body.
  destruct (convert_date when) as [[s|d]|]; simpl; try discriminate.
  unfold add_days. replace (d + - (7)) with (d - 7) by lia.
  destruct ((MINORD <=? d - 7) && (d - 7 <=? MAXORD)); simpl; [|discriminate].
  destruct ((MINORD <=? d + 7) && (d + 7 <=? MAXORD)); simpl; [|discriminate].
  destruct (history (format_symbol sym) (PDatetime (d - 7)) (PDatetime (d + 7)))
    as [data|] eqn:Hh; simpl; [|discriminate].
  destruct (empty data); [discriminate|].
  rewrite exact_day_lookup.
  destruct (List.find (fun b => bar_date b =? d) data) as [b|] eqn:Hf;
    [|discriminate].
  intros [= <-]. exists d, data, b.
  split; [reflexivity|]. split; [exact Hh|]. split; [exact Hf|].
  split; [|reflexivity].
  apply find_some in Hf as [_ Hb]. apply Z.eqb_eq in Hb. exact Hb.
Qed.

Lemma X9_resolved_price_is_exact_day_close_witness :
  exists d data b,
    convert_date (PStr "25/12/2023") = Ok (PDatetime d)
    /\ Sample.market (format_symbol "WIN") (PDatetime (d - 7)) (PDatetime (d + 7))
       = Ok data
    /\ List.find (fun b => bar_date b =? d) data = Some b
    /\ bar_date b = d
    /\ 100%float = Close b.
Proof.
  apply (X9_resolved_price_is_exact_day_close Sample.market "WIN"
           (PStr "25/12/2023") 100).
  reflexivity.
Defined.

(* ===================================================================== *)
(** ** The results of the rows *)
(* ===================================================================== *)

Lemma is_error_text (message : string) :
  is_error ("Error: " ++ message)%string = true.
Proof.
  unfold is_error. apply prefix_correct. simpl. destruct message; reflexivity.
Qed.

Lemma check_outcomes history sym entry_date ep tp sp :
  let outcome := check_target_or_sl_first history sym entry_date ep tp sp in
  In outcome ["Target Hit"; "Stop Loss Hit"; "Neither Hit"; "No Data"]
  \/ is_error outcome = true.
Proof.
  cbv zeta. unfold check_target_or_sl_first.
  destruct (check_target_or_sl_first_body history sym entry_date ep tp sp)
    as [outcome|e] eqn:E; [|right; apply is_error_text].
  left. unfold check_target_or_sl_first_body in E.
  destruct (convert_date entry_date) as [v|]; [|discriminate]. simpl in E.
  destruct (add_timedelta v 30) as [w|]; [|discriminate]. simpl in E.
  destruct (history (format_symbol sym) v w) as [data|]; [|discriminate].
  simpl in E. destruct (empty data); [injection E as <-; simpl; tauto|].
  destruct (date_of v) as [entry|]; [|discriminate]. simpl in E.
  injection E as <-.
  pose proof (scan_values entry tp sp data) as Hin. simpl in Hin. simpl. tauto.
Qed.

Lemma prefix_inv (p s : string) :
  String.prefix p s = true -> exists rest, s = (p ++ rest)%string.
Proof.
  revert s. induction p as [|a p IH]; intros s.
  - intros _. exists s. reflexivity.
  - destruct s as [|b s]; simpl; [discriminate|].
    destruct (ascii_dec a b) as [<-|]; intros H; [|discriminate H].
    destruct (IH s H) as [rest ->]. exists rest. reflexivity.
Qed.

Lemma count_true_cons (m : bool) (mask : list bool) :
  count_true (m :: mask) = (if m then 1 else 0) + count_true mask.
Proof.
  unfold count_true. simpl. destruct m; simpl length; lia.
Qed.

(** Each known outcome falls in exactly one of the four counts. *)
Lemma counts_partition (results : list string) :
  Forall known_outcome results ->
  Z.of_nat (length results)
  = count_true (mask_eq "Target Hit" results)
    + count_true (mask_eq "Stop Loss Hit" results)
    + count_true (mask_isin ["Neither Hit"; "No Data"; "Price Not Found"] results)
    + count_errors results.
Proof.
  induction 1 as [|outcome results Hk _ IH].
  - reflexivity.
  - unfold count_errors, mask_eq, mask_isin in *. simpl map.
    rewrite !count_true_cons. simpl length. rewrite Nat2Z.inj_succ, IH.
    assert (Hone :
      (if String.eqb outcome "Target Hit" then 1 else 0)
      + (if String.eqb outcome "Stop Loss Hit" then 1 else 0)
      + (if existsb (String.eqb outcome)
              ["Neither Hit"; "No Data"; "Price Not Found"] then 1 else 0)
      + (if is_error outcome then 1 else 0) = 1).
    { destruct Hk as [Hin|Herr].
      - simpl in Hin.
        destruct Hin as [<-|[<-|[<-|[<-|[<-|[]]]]]]; reflexivity.
      - unfold is_error in *. rewrite Herr.
        apply prefix_inv in Herr as [rest ->]. reflexivity. }
    simpl existsb in *. lia.
Qed.

Section Rows.

Variables (history : price_source) (target_pct sl_pct : float).

Lemma process_one_outcome (r : row) :
  known_outcome (col_result (process_one history target_pct sl_pct r)).
Proof.
  unfold process_one, known_outcome.
  destruct (get_stock_price history (col_symbol r) (col_date r)) as [c|]; simpl.
  - destruct (check_outcomes history (col_symbol r) (col_date r) c
                (c * (1 + target_pct / 100))%float
                (c * (1 - sl_pct / 100))%float) as [Hin|Herr];
      [left|right; exact Herr].
    simpl in Hin. tauto.
  - tauto.
Qed.

Lemma processed_outcomes (df : list row) :
  Forall known_outcome (map col_result (process_rows history target_pct sl_pct df)).
Proof.
  rewrite process_rows_map. induction df as [|r df IH]; simpl; constructor;
    [apply process_one_outcome|exact IH].
Qed.

End Rows.

(** X10. After the loop every row carries one of the five outcomes or an
    error text beginning with "Error: ", and it carries "Price Not Found"
    exactly when the resolver found no price for it. *)
Theorem X10_row_outcomes
    (history : price_source) (target_pct sl_pct : float)
    (sheet : list trade) (i : nat) (tr : trade) :
  sheet !! i = Some tr ->
  let df := process_rows history target_pct sl_pct
              (init_columns target_pct sl_pct sheet) in
  exists r,
    df !! i = Some r
    /\ known_outcome (col_result r)
    /\ (col_result r = "Price Not Found"
        <-> get_stock_price history (symbol tr) (date tr) = None).
Proof.
  intros Hi df. subst df.
  rewrite (processed_row history target_pct sl_pct sheet i tr Hi).
  eexists. split; [reflexivity|]. split; [apply process_one_outcome|].
  unfold process_one. simpl.
  destruct (get_stock_price history (symbol tr) (date tr)) as [c|]; simpl.
  - split; [|discriminate]. intros Hres.
    destruct (check_outcomes history (symbol tr) (date tr) c
                (c * (1 + target_pct / 100))%float
                (c * (1 - sl_pct / 100))%float) as [Hin|Herr];
      rewrite Hres in *.
    + simpl in Hin. destruct Hin as [H|[H|[H|[H|[]]]]]; discriminate.
    + discriminate.
  - split; reflexivity.
Qed.

Lemma X10_row_outcomes_witness :
  let df := process_rows Sample.market 3 2 (init_columns 3 2 Sample.sheet_mixed) in
  exists r,
    df !! 2%nat = Some r
    /\ known_outcome (col_result r)
    /\ (col_result r = "Price Not Found"
        <-> get_stock_price Sample.market (symbol (Sample.on_day0 "DOWN"))
              (date (Sample.on_day0 "DOWN")) = None).
Proof.
  apply (X10_row_outcomes Sample.market 3 2 Sample.sheet_mixed 2
           (Sample.on_day0 "DOWN")).
  reflexivity.
Defined.

(** X11. The loop treats each row on its own: processing a sheet made of
    two parts gives the rows of the first part followed by the rows of
    the second, each as if its part had been processed alone. *)
Theorem X11_rows_are_independent
    (history : price_source) (target_pct sl_pct : float)
    (first second : list trade) :
  process_rows history target_pct sl_pct
    (init_columns target_pct sl_pct (first ++ second))
  = process_rows history target_pct sl_pct (init_columns target_pct sl_pct first)
    ++ process_rows history target_pct sl_pct
         (init_columns target_pct sl_pct second).
Proof.
  rewrite !process_rows_map. unfold init_columns. rewrite !map_app. reflexivity.
Qed.

(* ===================================================================== *)
(** ** The figures of [main] *)
(* ===================================================================== *)

(** X12. The three counts of lines 236-238, taken on the rows the loop
    leaves, add up to the number of trades less the rows whose result is
    an error text: a row whose classification raised is counted as a
    trade and in none of the three. *)
Theorem X12_counts_leave_out_error_rows
    (history : price_source) (target_pct sl_pct : float) (sheet : list trade) :
  let results :=
    map col_result
      (process_rows history target_pct sl_pct
         (init_columns target_pct sl_pct sheet)) in
  count_true (mask_eq "Target Hit" results)
  + count_true (mask_eq "Stop Loss Hit" results)
  + count_true (mask_isin ["Neither Hit"; "No Data"; "Price Not Found"] results)
  = Z.of_nat (length sheet) - count_errors results.
Proof.
  cbv zeta.
  pose proof (counts_partition _
                (processed_outcomes history target_pct sl_pct
                   (init_columns target_pct sl_pct sheet))) as Hp.
  rewrite length_map, process_rows_length in Hp. unfold init_columns in Hp at 1.
  rewrite length_map in Hp. lia.
Qed.

(** Three trades, one of them with a failing classification: one target
    hit, no stop-loss hit, one row without result, one error row. *)
Example counts_with_an_error_row :
  let results :=
    map col_result
      (process_rows Sample.market 3 2
         (init_columns 3 2
            [Sample.on_day0 "WIN"; Sample.on_day0 "FLAKY"; Sample.on_day0 "NONE"])) in
  (count_true (mask_eq "Target Hit" results),
   count_true (mask_eq "Stop Loss Hit" results),
   count_true (mask_isin ["Neither Hit"; "No Data"; "Price Not Found"] results),
   count_errors results) = (1, 0, 1, 1).
Proof. reflexivity. Qed.

(** X19. When the date conversion of line 292 refuses the date column of
    a sheet with rows, [main] ends in its handler with that error: the
    rows have been processed and counted, and no profit or loss, win rate
    or average is shown. *)
Theorem X19_date_column_refused
    (history : price_source) (pd_to_datetime : list pyval -> exc (list pyval))
    (target_pct sl_pct : float) (sheet : list trade) (e : exn) :
  sheet <> [] ->
  pd_to_datetime (map date sheet) = Raise e ->
  main history pd_to_datetime target_pct sl_pct sheet
  = inr ("Error processing file: " ++ str e)%string.
Proof.
  intros Hne Hd. unfold main, main_body.
  set (df := process_rows history target_pct sl_pct
               (init_columns target_pct sl_pct sheet)).
  assert (Hlen : Z.of_nat (length df) <> 0).
  { subst df. rewrite process_rows_length. unfold init_columns.
    rewrite length_map. destruct sheet; [congruence|]. simpl length. lia. }
  unfold truediv at 1 2 3.
  replace (Z.of_nat (length df) =? 0) with false
    by (symmetry; apply Z.eqb_neq; exact Hlen).
  simpl. subst df. rewrite processed_dates, Hd. reflexivity.
Qed.

Lemma X19_date_column_refused_witness :
  main Sample.market Cases.to_datetime_fails 3 2 Sample.sheet_mixed
  = inr "Error processing file: Unknown datetime string format".
Proof.
  apply (X19_date_column_refused Sample.market Cases.to_datetime_fails 3 2
           Sample.sheet_mixed (Exn ValueError "Unknown datetime string format")).
  - discriminate.
  - reflexivity.
Defined.

(* ===================================================================== *)
(** ** The columns of the upload *)
(* ===================================================================== *)

Section Columns.

Lemma has_column_In (columns : list string) (col : string) :
  has_column columns col = true <-> In col columns.
Proof.
  unfold has_column. rewrite existsb_exists. split.
  - intros (x & Hin & Hx). apply String.eqb_eq in Hx. subst x. exact Hin.
  - intros Hin. exists col. split; [exact Hin|apply String.eqb_refl].
Qed.

Lemma has_column_app (columns : list string) (name col : string) :
  has_column (columns ++ [name]) col = has_column columns col || String.eqb col name.
Proof.
  unfold has_column. rewrite existsb_app. simpl. rewrite orb_false_r. reflexivity.
Qed.

(** The four columns lines 179-182 add, when the upload has none of
    them, come after the uploaded ones. *)
Lemma added_columns (columns : list string) :
  Forall (fun name => has_column columns name = false)
    ["close_price"; "target_pct"; "sl_pct"; "result"] ->
  add_column "result"
    (add_column "sl_pct" (add_column "target_pct" (add_column "close_price" columns)))
  = columns ++ ["close_price"; "target_pct"; "sl_pct"; "result"].
Proof.
  intros H. inversion H as [|? ? H1 H']; subst. inversion H' as [|? ? H2 H'']; subst.
  inversion H'' as [|? ? H3 H''']; subst. inversion H''' as [|? ? H4 _]; subst.
  unfold add_column at 4. rewrite H1.
  unfold add_column at 3. rewrite has_column_app, H2. simpl.
  unfold add_column at 2. rewrite !has_column_app, H3. simpl.
  unfold add_column. rewrite !has_column_app, H4. simpl.
  rewrite <- !app_assoc. reflexivity.
Qed.

(** Four columns that include the four required ones are the required
    ones, in some order. *)
Lemma exactly_required (columns : list string) :
  forallb (has_column columns) required_columns = true ->
  length columns = 4%nat ->
  forall col, In col columns -> In col required_columns.
Proof.
  intros Hall Hlen.
  apply (NoDup_length_incl (l := required_columns)).
  - unfold required_columns. repeat constructor; simpl; intuition discriminate.
  - rewrite Hlen. reflexivity.
  - intros col Hin. apply has_column_In.
    rewrite forallb_forall in Hall. apply Hall. exact Hin.
Qed.

End Columns.

(** X16. An upload that lacks one of the columns date, symbol,
    marketcapname, sector is refused with the message naming the four,
    whatever its rows and before any price is asked for. *)
Theorem X16_missing_column_stops
    (history : price_source) (pd_to_datetime : list pyval -> exc (list pyval))
    (target_pct sl_pct : float) (columns : list string) (sheet : list trade)
    (col : string) :
  In col required_columns ->
  ~ In col columns ->
  main_upload history pd_to_datetime target_pct sl_pct (Some (columns, sheet))
  = Stopped
      "Missing required columns. Required: ['date', 'symbol', 'marketcapname', 'sector']".
Proof.
  intros Hreq Hno. unfold main_upload.
  replace (forallb (has_column columns) required_columns) with false;
    [reflexivity|].
  symmetry. apply not_true_is_false. intros Hall.
  rewrite forallb_forall in Hall. apply Hno, has_column_In, Hall, Hreq.
Qed.

Lemma X16_missing_column_stops_witness :
  main_upload Sample.market Sample.to_datetime_ok 3 2
    (Some (Cases.columns_short, Cases.two_trades))
  = Stopped
      "Missing required columns. Required: ['date', 'symbol', 'marketcapname', 'sector']".
Proof.
  apply (X16_missing_column_stops Sample.market Sample.to_datetime_ok 3 2
           Cases.columns_short Cases.two_trades "sector").
  - simpl. tauto.
  - simpl. intuition discriminate.
Defined.

(** X17. An upload with exactly four columns that include the required
    ones, in any order, goes through the column check and the renaming
    of line 225, and ends as [main] on its rows does. *)
Theorem X17_required_columns_in_any_order
    (history : price_source) (pd_to_datetime : list pyval -> exc (list pyval))
    (target_pct sl_pct : float) (columns : list string) (sheet : list trade) :
  forallb (has_column columns) required_columns = true ->
  length columns = 4%nat ->
  main_upload history pd_to_datetime target_pct sl_pct (Some (columns, sheet))
  = match main history pd_to_datetime target_pct sl_pct sheet with
    | inl r => Shown r
    | inr message => Failed message
    end.
Proof.
  intros Hall Hlen. unfold main_upload, main. rewrite Hall. simpl negb. cbv iota.
  rewrite added_columns.
  - unfold set_columns. rewrite length_app, Hlen. simpl.
    destruct (main_body history pd_to_datetime target_pct sl_pct sheet);
      reflexivity.
  - pose proof (exactly_required columns Hall Hlen) as Hreq.
    repeat constructor; apply not_true_is_false; intros Hin;
      apply has_column_In, Hreq in Hin; simpl in Hin; intuition discriminate.
Qed.

Lemma X17_required_columns_in_any_order_witness :
  main_upload Sample.market Sample.to_datetime_ok 3 2
    (Some (Cases.columns_reordered, Cases.two_trades))
  = match main Sample.market Sample.to_datetime_ok 3 2 Cases.two_trades with
    | inl r => Shown r
    | inr message => Failed message
    end.
Proof.
  apply (X17_required_columns_in_any_order Sample.market Sample.to_datetime_ok
           3 2 Cases.columns_reordered Cases.two_trades); reflexivity.
Defined.

(** X18. An upload that has the required columns and further ones (none
    named like the four columns the program adds) passes the column
    check, has all its rows processed, and then fails at the renaming of
    line 225, which gives eight names to more than eight columns: the
    page shows the length mismatch and no result. *)
Theorem X18_extra_column_fails_at_renaming
    (history : price_source) (pd_to_datetime : list pyval -> exc (list pyval))
    (target_pct sl_pct : float) (columns : list string) (sheet : list trade) :
  forallb (has_column columns) required_columns = true ->
  Forall (fun name => has_column columns name = false)
    ["close_price"; "target_pct"; "sl_pct"; "result"] ->
  length columns <> 4%nat ->
  main_upload history pd_to_datetime target_pct sl_pct (Some (columns, sheet))
  = Failed
      ("Error processing file: Length mismatch: Expected axis has "
       ++ str_of_nat (length columns + 4)
       ++ " elements, new values have 8 elements")%string.
Proof.
  intros Hall Hnew Hlen. unfold main_upload. rewrite Hall. simpl negb. cbv iota.
  rewrite (added_columns columns Hnew). unfold set_columns.
  rewrite length_app. simpl length.
  replace (length columns + 4 =? 8)%nat with false
    by (symmetry; apply Nat.eqb_neq; lia).
  reflexivity.
Qed.

Lemma X18_extra_column_fails_at_renaming_witness :
  main_upload Sample.market Sample.to_datetime_ok 3 2
    (Some (Cases.columns_wide, Cases.two_trades))
  = Failed
      "Error processing file: Length mismatch: Expected axis has 9 elements, new values have 8 elements".
Proof.
  apply (X18_extra_column_fails_at_renaming Sample.market Sample.to_datetime_ok
           3 2 Cases.columns_wide Cases.two_trades).
  - reflexivity.
  - repeat constructor.
  - simpl. discriminate.
Defined.
